(** * ztime: a shell-independent [time] wrapper

    A shallow embedding of the Go sources of ztime (the measuring
    wrapper, its resource-usage extraction and its [TIMEFMT] template
    interpreter) together with the properties its specification states.

    Conventions of the embedding:
    - Go [int], [int64] and [time.Duration] values are integers of [Z];
      arithmetic that can leave the 64-bit range is wrapped explicitly
      ([Int64.wrap]).  [int] is taken to be 64 bits wide.
    - Go [float64] values are IEEE-754 binary64 numbers, modelled by the
      standard library's executable specification [SpecFloat] at
      precision 53 and exponent bound 1024; every operation rounds to
      nearest, ties to even, as the hardware does.
    - Go strings are byte strings: [string] over 8-bit [ascii].
    - A [*bytes.Buffer] is the string written so far; writing appends. *)

From Stdlib Require Import ZArith Bool List Lia PeanoNat.
From Stdlib Require Import Strings.String Strings.Ascii.
From Stdlib Require Import Numbers.DecimalString.
From Stdlib Require Numbers.DecimalPos Numbers.DecimalZ.
From Stdlib Require Import Floats.SpecFloat.
Import ListNotations.

Local Open Scope string_scope.
Local Open Scope Z_scope.

(* ================================================================== *)
(** ** 64-bit integers *)
(* ================================================================== *)

Module Int64.

Definition min_int : Z := - 2 ^ 63.
Definition max_int : Z := 2 ^ 63 - 1.

Definition in_range (z : Z) : Prop := min_int <= z <= max_int.

Definition in_rangeb (z : Z) : bool := (min_int <=? z) && (z <=? max_int).

(** Two's complement wrap-around of a mathematical integer. *)
Definition wrap (z : Z) : Z := (z + 2 ^ 63) mod 2 ^ 64 - 2 ^ 63.

Definition add (a b : Z) : Z := wrap (a + b).
Definition sub (a b : Z) : Z := wrap (a - b).
Definition mul (a b : Z) : Z := wrap (a * b).

End Int64.

(* ================================================================== *)
(** ** IEEE-754 binary64 *)
(* ================================================================== *)

Module Float64.

Definition prec : Z := 53.
Definition emax : Z := 1024.

Definition float64 : Type := spec_float.

Definition zero : float64 := S754_zero false.

Definition add : float64 -> float64 -> float64 := SFadd prec emax.
Definition sub : float64 -> float64 -> float64 := SFsub prec emax.
Definition mul : float64 -> float64 -> float64 := SFmul prec emax.
Definition div : float64 -> float64 -> float64 := SFdiv prec emax.

(** [x < y] and [x > y] of Go; false as soon as one side is a NaN. *)
Definition ltb : float64 -> float64 -> bool := SFltb.
Definition gtb (x y : float64) : bool := SFltb y x.

(** [float64(z)] for an integer [z]: the nearest binary64. *)
Definition of_int (z : Z) : float64 := binary_normalize prec emax z 0 false.

(** The integer part of a finite number, rounding toward zero. *)
Definition trunc (x : float64) : option Z :=
  match x with
  | S754_zero _ => Some 0
  | S754_finite s m e =>
      let a := match e with
               | Zneg p => Z.shiftr (Zpos m) (Zpos p)
               | _ => Z.shiftl (Zpos m) e
               end in
      Some (if s then - a else a)
  | S754_infinity _ | S754_nan => None
  end.

(** [int(x)] of Go.  A value with no integer part or one outside the
    64-bit range converts to an implementation-dependent result; the
    amd64 one (the most negative integer) is used. *)
Definition to_int (x : float64) : Z :=
  match trunc x with
  | Some z => if Int64.in_rangeb z then z else Int64.min_int
  | None => Int64.min_int
  end.

(** The numbers that compare greater than zero, with the exponent of a
    finite one not below the least exponent of the format. *)
Definition is_positive (x : float64) : Prop :=
  match x with
  | S754_finite false _ e => -1074 <= e
  | S754_infinity false => True
  | _ => False
  end.

(** The numbers that do not compare greater than zero: the zeros, the
    negative numbers and the NaN. *)
Definition is_nonpositive (x : float64) : Prop :=
  match x with
  | S754_zero _ => True
  | S754_finite s _ _ => s = true
  | S754_infinity s => s = true
  | S754_nan => True
  end.

End Float64.

(* ================================================================== *)
(** ** Package [time]: durations *)
(* ================================================================== *)

Module Time.

(** A [time.Duration] is a signed 64-bit count of nanoseconds. *)
Definition Duration : Type := Z.

Definition Nanosecond : Duration := 1.
Definition Microsecond : Duration := 1000 * Nanosecond.
Definition Millisecond : Duration := 1000 * Microsecond.
Definition Second : Duration := 1000 * Millisecond.
Definition Minute : Duration := 60 * Second.
Definition Hour : Duration := 60 * Minute.

(** [Duration.Seconds]: [float64(d / Second) + float64(d % Second)/1e9],
    with Go's truncated division and remainder. *)
Definition Seconds (d : Duration) : Float64.float64 :=
  let sec := Z.quot d Second in
  let nsec := Z.rem d Second in
  Float64.add (Float64.of_int sec)
    (Float64.div (Float64.of_int nsec) (Float64.of_int 1000000000)).

(** [Duration.Minutes]: [float64(d / Minute) + float64(d % Minute)/(60*1e9)]. *)
Definition Minutes (d : Duration) : Float64.float64 :=
  let min := Z.quot d Minute in
  let nsec := Z.rem d Minute in
  Float64.add (Float64.of_int min)
    (Float64.div (Float64.of_int nsec) (Float64.of_int 60000000000)).

(** [Duration.Hours]: [float64(d / Hour) + float64(d % Hour)/(60*60*1e9)]. *)
Definition Hours (d : Duration) : Float64.float64 :=
  let h := Z.quot d Hour in
  let nsec := Z.rem d Hour in
  Float64.add (Float64.of_int h)
    (Float64.div (Float64.of_int nsec) (Float64.of_int 3600000000000)).

Definition minDuration : Duration := Int64.min_int.
Definition maxDuration : Duration := Int64.max_int.

(** A [time.Time] taken by [time.Now]: its monotonic clock reading in
    nanoseconds. *)
Record Time : Type := { mono : Z }.

(** [Time.Sub] of two readings that both carry a monotonic clock value:
    the difference, saturated to the range of [Duration]. *)
Definition Sub (t u : Time) : Duration :=
  let d := Int64.sub (mono t) (mono u) in
  if (d <? 0) && (mono u <? mono t) then maxDuration
  else if (0 <? d) && (mono t <? mono u) then minDuration
  else d.

End Time.

(* ================================================================== *)
(** ** Package [strconv]: numbers to text *)
(* ================================================================== *)

Module Strconv.

(** [strconv.FormatInt(z, 10)], [strconv.Itoa(z)] and the verb [%d]. *)
Definition FormatInt (z : Z) : string := NilZero.string_of_int (Z.to_int z).

Definition Itoa : Z -> string := FormatInt.

Fixpoint repeat_char (c : ascii) (n : nat) : string :=
  match n with
  | O => EmptyString
  | S n' => String c (repeat_char c n')
  end.

(** Left padding of [s] with [c] up to [width] characters. *)
Definition pad_left (c : ascii) (width : nat) (s : string) : string :=
  repeat_char c (width - String.length s) ++ s.

Definition round_half_even (n d : Z) : Z :=
  let q := n / d in
  match (2 * (n mod d) ?= d) with
  | Lt => q
  | Gt => q + 1
  | Eq => if Z.even q then q else q + 1
  end.

(** The magnitude [m * 2^e] in hundredths, correctly rounded (the
    decimal expansion of a binary64 is exact, so a tie is a true tie
    and goes to the even digit). *)
Definition hundredths (m : positive) (e : Z) : Z :=
  match e with
  | Zneg p => round_half_even (Zpos m * 100) (2 ^ Zpos p)
  | _ => Zpos m * 2 ^ e * 100
  end.

Definition fixed2 (h : Z) : string :=
  FormatInt (h / 100) ++ "." ++ pad_left "0" 2 (FormatInt (h mod 100)).

Definition sign_char (s : bool) : ascii := if s then "-"%char else "+"%char.

(** [strconv.AppendFloat(x, 'f', 2, 64)] with its sign made explicit,
    as [fmt] keeps it: the sign character and the unsigned text. *)
Definition FormatFloat_f2 (x : Float64.float64) : ascii * string :=
  match x with
  | S754_zero s => (sign_char s, fixed2 0)
  | S754_finite s m e => (sign_char s, fixed2 (hundredths m e))
  | S754_infinity s => (sign_char s, "Inf")
  | S754_nan => (sign_char false, "NaN")
  end.

End Strconv.

(* ================================================================== *)
(** ** Package [fmt]: the verbs the wrapper uses *)
(* ================================================================== *)

Module Fmt.

(** The verb [%02d]: the sign first, then the digits zero-padded so
    that the whole takes at least two characters. *)
Definition Sprintf_02d (z : Z) : string :=
  if z <? 0 then "-" ++ Strconv.pad_left "0" 1 (Strconv.FormatInt (- z))
  else Strconv.pad_left "0" 2 (Strconv.FormatInt z).

(** Float printing for the verbs [%.2f] ([width = 0]) and [%05.2f]
    ([width = 5], zero flag set): infinities and NaN are never
    zero-padded, a NaN loses its sign, a negative number keeps its sign
    in front of the padding zeros, a positive one shows no sign. *)
Definition fmtFloat (width : nat) (zero_flag : bool) (x : Float64.float64) : string :=
  let '(sign, body) := Strconv.FormatFloat_f2 x in
  match x with
  | S754_infinity _ => Strconv.pad_left " " width (String sign body)
  | S754_nan => Strconv.pad_left " " width body
  | _ =>
      let padc := if zero_flag then "0"%char else " "%char in
      if Ascii.eqb sign "-" then
        if zero_flag then String sign (Strconv.pad_left padc (width - 1) body)
        else Strconv.pad_left padc width (String sign body)
      else Strconv.pad_left padc width body
  end.

Definition Sprintf_2f : Float64.float64 -> string := fmtFloat 0 false.
Definition Sprintf_05_2f : Float64.float64 -> string := fmtFloat 5 true.

(** [fmt.Sprintf("%d:%02d:%05.2f", hours, mins, secs)]. *)
Definition Sprintf_h_mm_ss (hours mins : Z) (secs : Float64.float64) : string :=
  Strconv.FormatInt hours ++ ":" ++ Sprintf_02d mins ++ ":" ++ Sprintf_05_2f secs.

(** [fmt.Sprintf("%d:%05.2f", mins, secs)]. *)
Definition Sprintf_m_ss (mins : Z) (secs : Float64.float64) : string :=
  Strconv.FormatInt mins ++ ":" ++ Sprintf_05_2f secs.

End Fmt.

(* ================================================================== *)
(** ** The measurements *)
(* ================================================================== *)

(** [calculateCPUPercent]: user plus system time over wall time, times
    one hundred, converted to [int]; zero when no wall time elapsed. *)
Definition calculateCPUPercent (user sys elapsed : Time.Duration) : Z :=
  let totalCPU := Float64.add (Time.Seconds user) (Time.Seconds sys) in
  let realSec := Time.Seconds elapsed in
  if Float64.gtb realSec Float64.zero then
    Float64.to_int (Float64.mul (Float64.div totalCPU realSec) (Float64.of_int 100))
  else 0.

Definition ms (n : Z) : Time.Duration := n * Time.Millisecond.

(** [Metrics] holds the timing and resource usage data. *)
Record Metrics : Type := {
  Command : string;
  UserTime : Time.Duration;
  SystemTime : Time.Duration;
  ElapsedTime : Time.Duration;
  CPUPercent : Z;
  MaxRSS : Z;
  SharedRSS : Z;
  UnsharedRSS : Z;
  UnsharedData : Z;
  UnsharedStk : Z;
  PageFaults : Z;
  PageReclaims : Z;
  Swaps : Z;
  BlockInput : Z;
  BlockOutput : Z;
  MsgsSent : Z;
  MsgsRecv : Z;
  Signals : Z;
  VCtxSwitches : Z;
  ICtxSwitches : Z
}.

(** The zero value of [Metrics] with the two fields the composite
    literal of [extractMetrics] sets. *)
Definition Metrics_literal (command : string) (elapsed : Time.Duration) : Metrics :=
  {| Command := command; UserTime := 0; SystemTime := 0; ElapsedTime := elapsed;
     CPUPercent := 0; MaxRSS := 0; SharedRSS := 0; UnsharedRSS := 0;
     UnsharedData := 0; UnsharedStk := 0; PageFaults := 0; PageReclaims := 0;
     Swaps := 0; BlockInput := 0; BlockOutput := 0; MsgsSent := 0; MsgsRecv := 0;
     Signals := 0; VCtxSwitches := 0; ICtxSwitches := 0 |}.

(** The counters of [syscall.Rusage] that the wrapper reads. *)
Record Rusage : Type := {
  Maxrss : Z; Ixrss : Z; Idrss : Z; Isrss : Z; Minflt : Z; Majflt : Z;
  Nswap : Z; Inblock : Z; Oublock : Z; Msgsnd : Z; Msgrcv : Z;
  Nsignals : Z; Nvcsw : Z; Nivcsw : Z
}.

(** What the wrapper observes of an [*os.ProcessState]: the two CPU
    times and [SysUsage()], which is a [*syscall.Rusage] or not. *)
Record ProcessState : Type := {
  PS_UserTime : Time.Duration;
  PS_SystemTime : Time.Duration;
  PS_SysUsage : option Rusage
}.

(** What the wrapper observes of an [*exec.Cmd] after [Run]: the process
    state, [nil] when the child never started. *)
Record Cmd : Type := { Cmd_ProcessState : option ProcessState }.

(** [strings.Join]. *)
Fixpoint Join (elems : list string) (sep : string) : string :=
  match elems with
  | [] => ""
  | [x] => x
  | x :: rest => x ++ sep ++ Join rest sep
  end.

Definition set_times (m : Metrics) (user sys : Time.Duration) (cpu : Z) : Metrics :=
  {| Command := Command m; UserTime := user; SystemTime := sys;
     ElapsedTime := ElapsedTime m; CPUPercent := cpu;
     MaxRSS := MaxRSS m; SharedRSS := SharedRSS m; UnsharedRSS := UnsharedRSS m;
     UnsharedData := UnsharedData m; UnsharedStk := UnsharedStk m;
     PageFaults := PageFaults m; PageReclaims := PageReclaims m; Swaps := Swaps m;
     BlockInput := BlockInput m; BlockOutput := BlockOutput m;
     MsgsSent := MsgsSent m; MsgsRecv := MsgsRecv m; Signals := Signals m;
     VCtxSwitches := VCtxSwitches m; ICtxSwitches := ICtxSwitches m |}.

(** The fourteen assignments [m.MaxRSS = usage.Maxrss] ...
    [m.ICtxSwitches = usage.Nivcsw]; every other field keeps its value. *)
Definition copy_usage (m : Metrics) (usage : Rusage) : Metrics :=
  {| Command := Command m; UserTime := UserTime m; SystemTime := SystemTime m;
     ElapsedTime := ElapsedTime m; CPUPercent := CPUPercent m;
     MaxRSS := Maxrss usage;
     SharedRSS := Ixrss usage;
     UnsharedRSS := UnsharedRSS m;
     UnsharedData := Idrss usage;
     UnsharedStk := Isrss usage;
     PageFaults := Majflt usage;
     PageReclaims := Minflt usage;
     Swaps := Nswap usage;
     BlockInput := Inblock usage;
     BlockOutput := Oublock usage;
     MsgsSent := Msgsnd usage;
     MsgsRecv := Msgrcv usage;
     Signals := Nsignals usage;
     VCtxSwitches := Nvcsw usage;
     ICtxSwitches := Nivcsw usage |}.

(** [populateUsage] (rusage_unix.go). *)
Definition populateUsage (m : Metrics) (state : ProcessState) : Metrics :=
  match PS_SysUsage state with
  | Some usage => copy_usage m usage
  | None => m
  end.

(** [extractMetrics] of the stand-alone main.go, which reads the usage
    record in line. *)
Definition extractMetrics (cmd : Cmd) (start end_ : Time.Time) (args : list string) : Metrics :=
  let elapsed := Time.Sub end_ start in
  let m := Metrics_literal (Join args " ") elapsed in
  match Cmd_ProcessState cmd with
  | Some state =>
      let user := PS_UserTime state in
      let sys := PS_SystemTime state in
      let m := set_times m user sys (calculateCPUPercent user sys elapsed) in
      match PS_SysUsage state with
      | Some usage => copy_usage m usage
      | None => m
      end
  | None => m
  end.

(** The main.go that parses its command line with kong differs in
    [extractMetrics] only by calling [populateUsage]. *)
Module Cli.

Definition extractMetrics (cmd : Cmd) (start end_ : Time.Time) (args : list string) : Metrics :=
  let elapsed := Time.Sub end_ start in
  let m := Metrics_literal (Join args " ") elapsed in
  match Cmd_ProcessState cmd with
  | Some state =>
      let user := PS_UserTime state in
      let sys := PS_SystemTime state in
      let m := set_times m user sys (calculateCPUPercent user sys elapsed) in
      populateUsage m state
  | None => m
  end.

End Cli.

(* ================================================================== *)
(** ** The template interpreter *)
(* ================================================================== *)

(** [out.WriteByte(c)] and [out.WriteString(s)] on the buffer [out]. *)
Definition WriteByte (out : string) (c : ascii) : string := out ++ String c "".
Definition WriteString (out s : string) : string := out ++ s.

(** [tmpl[i]]; every use is guarded by [i < len(tmpl)]. *)
Definition byte_at (tmpl : string) (i : nat) : ascii :=
  match String.get i tmpl with
  | Some c => c
  | None => Ascii.zero
  end.

(** [handleIntSpecifier]: the integer counters; [false] when [char] is
    not one of them. *)
Definition handleIntSpecifier (out : string) (char : ascii) (m : Metrics) : bool * string :=
  if (char =? "M")%char then (true, WriteString out (Strconv.FormatInt (MaxRSS m)))
  else if (char =? "W")%char then (true, WriteString out (Strconv.FormatInt (Swaps m)))
  else if (char =? "X")%char then (true, WriteString out (Strconv.FormatInt (SharedRSS m)))
  else if (char =? "D")%char then
    (true, WriteString out (Strconv.FormatInt (Int64.add (UnsharedData m) (UnsharedStk m))))
  else if (char =? "K")%char then
    (true, WriteString out
       (Strconv.FormatInt (Int64.add (Int64.add (SharedRSS m) (UnsharedData m)) (UnsharedStk m))))
  else if (char =? "F")%char then (true, WriteString out (Strconv.FormatInt (PageFaults m)))
  else if (char =? "R")%char then (true, WriteString out (Strconv.FormatInt (PageReclaims m)))
  else if (char =? "I")%char then (true, WriteString out (Strconv.FormatInt (BlockInput m)))
  else if (char =? "O")%char then (true, WriteString out (Strconv.FormatInt (BlockOutput m)))
  else if (char =? "r")%char then (true, WriteString out (Strconv.FormatInt (MsgsRecv m)))
  else if (char =? "s")%char then (true, WriteString out (Strconv.FormatInt (MsgsSent m)))
  else if (char =? "k")%char then (true, WriteString out (Strconv.FormatInt (Signals m)))
  else if (char =? "w")%char then (true, WriteString out (Strconv.FormatInt (VCtxSwitches m)))
  else if (char =? "c")%char then (true, WriteString out (Strconv.FormatInt (ICtxSwitches m)))
  else (false, out).

(** [handleStar]: [%*E] when an [E] follows the star, which is then
    consumed by advancing the index; a literal star otherwise. *)
Definition handleStar (out : string) (m : Metrics) (idx : nat) (tmpl : string) : string * nat :=
  if ((idx + 1 <? String.length tmpl)%nat && (byte_at tmpl (idx + 1) =? "E")%char)%bool then
    let idx := (idx + 1)%nat in
    let d := ElapsedTime m in
    let hours := Float64.to_int (Time.Hours d) in
    let mins := Z.rem (Float64.to_int (Time.Minutes d)) 60 in
    let secs := Float64.sub (Time.Seconds d)
                  (Float64.of_int (Int64.mul (Float64.to_int (Time.Minutes d)) 60)) in
    if 0 <? hours then
      (WriteString out (Fmt.Sprintf_h_mm_ss hours mins secs), idx)
    else
      (WriteString out (Fmt.Sprintf_m_ss mins secs), idx)
  else
    (WriteByte out "*", idx).

(** [handleSpecifier]: the character after a percent sign. *)
Definition handleSpecifier (out : string) (char : ascii) (m : Metrics) (idx : nat) (tmpl : string)
  : bool * string * nat :=
  if (char =? "%")%char then (true, WriteByte out "%", idx)
  else if (char =? "J")%char then (true, WriteString out (Command m), idx)
  else if (char =? "U")%char then
    (true, WriteString out (Fmt.Sprintf_2f (Time.Seconds (UserTime m)) ++ "s"), idx)
  else if (char =? "S")%char then
    (true, WriteString out (Fmt.Sprintf_2f (Time.Seconds (SystemTime m)) ++ "s"), idx)
  else if (char =? "E")%char then
    (true, WriteString out (Fmt.Sprintf_2f (Time.Seconds (ElapsedTime m)) ++ "s"), idx)
  else if (char =? "*")%char then
    let '(out', idx') := handleStar out m idx tmpl in (true, out', idx')
  else if (char =? "P")%char then
    (true, WriteString out (Strconv.Itoa (CPUPercent m) ++ "%"), idx)
  else
    let '(handled, out') := handleIntSpecifier out char m in (handled, out', idx).

(** The loop of [format], one iteration per unit of [fuel]: [None] only
    if the fuel runs out before the index reaches the end. *)
Fixpoint format_loop (fuel : nat) (tmpl : string) (m : Metrics)
    (i : nat) (inPercent : bool) (out : string) : option string :=
  if (i <? String.length tmpl)%nat then
    match fuel with
    | O => None
    | S fuel' =>
        let char := byte_at tmpl i in
        if inPercent then
          let '(handled, out1, i1) := handleSpecifier out char m i tmpl in
          let out2 := if handled then out1 else WriteByte (WriteByte out1 "%") char in
          format_loop fuel' tmpl m (i1 + 1) false out2
        else if (char =? "%")%char then
          format_loop fuel' tmpl m (i + 1) true out
        else
          format_loop fuel' tmpl m (i + 1) false (WriteByte out char)
    end
  else
    Some (if inPercent then WriteByte out "%" else out).

(** [format]: the index runs over the template, so its length is fuel
    enough (see [format_loop_runs]). *)
Definition format (tmpl : string) (m : Metrics) : string :=
  match format_loop (String.length tmpl) tmpl m 0 false "" with
  | Some s => s
  | None => ""
  end.

(* ================================================================== *)
(** ** The wrapper's [main]: template selection and exit status *)
(* ================================================================== *)

(** The process environment: a variable is set to a value or unset. *)
Definition Environ : Type := string -> option string.

(** [os.Getenv]: the value, empty when the variable is unset. *)
Definition Getenv (env : Environ) (key : string) : string :=
  match env key with
  | Some v => v
  | None => ""
  end.

Definition default_TIMEFMT : string := "%J  %U user %S system %P cpu %*E total".

(** Step 5 of [main]: the template in force. *)
Definition main_timeFmt (env : Environ) : string :=
  let timeFmt := Getenv env "TIMEFMT" in
  if (timeFmt =? "")%string then default_TIMEFMT else timeFmt.

Definition newline : string := String (ascii_of_nat 10) "".

(** What [main] writes to its standard error after the child is done:
    [fmt.Fprintln(os.Stderr, format(timeFmt, metrics))]. *)
Definition main_summary (env : Environ) (metrics : Metrics) : string :=
  format (main_timeFmt env) metrics ++ newline.

(** [syscall.WaitStatus] (a 32-bit word) and its accessors. *)
Module WaitStatus.

Definition mask : Z := 127.
Definition core : Z := 128.
Definition exited : Z := 0.
Definition stopped : Z := 127.
Definition shift : Z := 8.

Definition Exited (w : Z) : bool := Z.land w mask =? exited.

Definition Signaled (w : Z) : bool :=
  negb (Z.land w mask =? stopped) && negb (Z.land w mask =? exited).

Definition ExitStatus (w : Z) : Z :=
  if Exited w then Z.land (Z.shiftr w shift) 255 else -1.

Definition Signal (w : Z) : Z :=
  if Signaled w then Z.land w mask else -1.

End WaitStatus.

(** The non-nil results of [cmd.Run]: an [*exec.ExitError] carrying the
    wait status of a child that ran and did not succeed, or any other
    error, which means that the child could not be started. *)
Inductive RunError : Type :=
| ExitError (status : Z)
| StartError (message : string).

(** How a run of the child can end. *)
Inductive ChildFate : Type :=
| NotStarted (message : string)
| ExitedWith (code : Z)
| KilledBy (signal : Z) (dumped_core : bool).

(** The wait status the kernel reports for a child that terminated. *)
Definition wait_status_of (code_or_signal : Z) (by_signal dumped_core : bool) : Z :=
  if by_signal then Z.lor code_or_signal (if dumped_core then WaitStatus.core else 0)
  else Z.shiftl (Z.land code_or_signal 255) WaitStatus.shift.

(** [cmd.Run]: [nil] exactly when the child ran and exited with status
    zero ([ProcessState.Success]). *)
Definition Run (fate : ChildFate) : option RunError :=
  match fate with
  | NotStarted message => Some (StartError message)
  | ExitedWith code =>
      let w := wait_status_of code false false in
      if WaitStatus.ExitStatus w =? 0 then None else Some (ExitError w)
  | KilledBy signal dumped_core =>
      let w := wait_status_of signal true dumped_core in
      if WaitStatus.ExitStatus w =? 0 then None else Some (ExitError w)
  end.

(** Step 6 of [main]: the argument of the [os.Exit] call reached.
    [exitErr.ExitCode()] is the exit status of the wait status. *)
Definition main_exit_code (err : option RunError) : Z :=
  match err with
  | None => 0
  | Some (ExitError status) =>
      if WaitStatus.Signaled status then 128 + WaitStatus.Signal status
      else WaitStatus.ExitStatus status
  | Some (StartError _) => 127
  end.

Definition SIGINT : Z := 2.

Module CliSummary.
Section Styled.

(** The styled default summary is drawn by the lipgloss library; its
    text is left open. *)
Variable styled_summary : Metrics -> string.

(** [printSummary] of the kong main.go: what it writes to standard
    error. *)
Definition printSummary (env : Environ) (m : Metrics) : string :=
  let timeFmt := Getenv env "TIMEFMT" in
  if negb (timeFmt =? "")%string then format timeFmt m ++ newline
  else styled_summary m.

End Styled.
End CliSummary.

(* ================================================================== *)
(** ** The specification's reading of the formatter and of the CPU share *)
(* ================================================================== *)

(** The text of a one-character specifier other than the star, [None]
    for a character outside the table. *)
Definition specifier_text (c : ascii) (m : Metrics) : option string :=
  if (c =? "%")%char then Some "%"
  else if (c =? "J")%char then Some (Command m)
  else if (c =? "U")%char then Some (Fmt.Sprintf_2f (Time.Seconds (UserTime m)) ++ "s")
  else if (c =? "S")%char then Some (Fmt.Sprintf_2f (Time.Seconds (SystemTime m)) ++ "s")
  else if (c =? "E")%char then Some (Fmt.Sprintf_2f (Time.Seconds (ElapsedTime m)) ++ "s")
  else if (c =? "P")%char then Some (Strconv.Itoa (CPUPercent m) ++ "%")
  else if (c =? "M")%char then Some (Strconv.FormatInt (MaxRSS m))
  else if (c =? "W")%char then Some (Strconv.FormatInt (Swaps m))
  else if (c =? "X")%char then Some (Strconv.FormatInt (SharedRSS m))
  else if (c =? "D")%char then
    Some (Strconv.FormatInt (Int64.add (UnsharedData m) (UnsharedStk m)))
  else if (c =? "K")%char then
    Some (Strconv.FormatInt (Int64.add (Int64.add (SharedRSS m) (UnsharedData m)) (UnsharedStk m)))
  else if (c =? "F")%char then Some (Strconv.FormatInt (PageFaults m))
  else if (c =? "R")%char then Some (Strconv.FormatInt (PageReclaims m))
  else if (c =? "I")%char then Some (Strconv.FormatInt (BlockInput m))
  else if (c =? "O")%char then Some (Strconv.FormatInt (BlockOutput m))
  else if (c =? "r")%char then Some (Strconv.FormatInt (MsgsRecv m))
  else if (c =? "s")%char then Some (Strconv.FormatInt (MsgsSent m))
  else if (c =? "k")%char then Some (Strconv.FormatInt (Signals m))
  else if (c =? "w")%char then Some (Strconv.FormatInt (VCtxSwitches m))
  else if (c =? "c")%char then Some (Strconv.FormatInt (ICtxSwitches m))
  else None.

(** The text of [%*E] for an elapsed time. *)
Definition star_E_text (d : Time.Duration) : string :=
  let hours := Float64.to_int (Time.Hours d) in
  let mins := Z.rem (Float64.to_int (Time.Minutes d)) 60 in
  let secs := Float64.sub (Time.Seconds d)
                (Float64.of_int (Int64.mul (Float64.to_int (Time.Minutes d)) 60)) in
  if 0 <? hours then Fmt.Sprintf_h_mm_ss hours mins secs
  else Fmt.Sprintf_m_ss mins secs.

(** The grammar of the specification, read off the template from left to
    right: [in_percent] tells whether the previous character was a
    percent sign that opened a specifier. *)
Fixpoint render_from (in_percent : bool) (template : string) (m : Metrics) : string :=
  match template with
  | EmptyString => if in_percent then "%" else ""
  | String c rest =>
      if in_percent then
        if (c =? "*")%char then
          match rest with
          | String c' rest' =>
              if (c' =? "E")%char then star_E_text (ElapsedTime m) ++ render_from false rest' m
              else "*" ++ render_from false rest m
          | EmptyString => "*" ++ render_from false rest m
          end
        else
          match specifier_text c m with
          | Some text => text ++ render_from false rest m
          | None => String "%" (String c (render_from false rest m))
          end
      else if (c =? "%")%char then render_from true rest m
      else String c (render_from false rest m)
  end.

Definition render (template : string) (m : Metrics) : string :=
  render_from false template m.

(** The state of the scan at the end of a template: [true] when its last
    character is a percent sign that opens a specifier. *)
Fixpoint ends_in_percent (in_percent : bool) (template : string) : bool :=
  match template with
  | EmptyString => in_percent
  | String c rest =>
      if in_percent then ends_in_percent false rest
      else ends_in_percent (c =? "%")%char rest
  end.

(** A template that no specifier is left open at the end of. *)
Definition complete (template : string) : Prop := ends_in_percent false template = false.

(** The characters the specification lists as specifiers. *)
Definition specifier_chars : list ascii :=
  ["%"; "J"; "U"; "S"; "E"; "P"; "*"; "M"; "W"; "X"; "D"; "K"; "F"; "R"; "I"; "O";
   "r"; "s"; "k"; "w"; "c"]%char.

Definition recognized (c : ascii) : bool := existsb (Ascii.eqb c) specifier_chars.

Fixpoint drop (n : nat) (s : string) : string :=
  match n, s with
  | O, _ => s
  | S n', String _ rest => drop n' rest
  | S _, EmptyString => EmptyString
  end.

Fixpoint contains_char (c : ascii) (s : string) : bool :=
  match s with
  | EmptyString => false
  | String c' rest => (c' =? c)%char || contains_char c rest
  end.

(** The CPU share as the specification words it, on exact numbers: the
    quotient [100 * (u + s) / e] of the three nanosecond counts,
    truncated toward zero. *)
Definition cpu_percent_exact (user sys elapsed : Time.Duration) : Z :=
  if 0 <? elapsed then Z.quot (100 * (user + sys)) elapsed else 0.

(** The same formula evaluated in binary64 in the order the
    specification writes it: [100 * total / elapsed]. *)
Definition cpu_percent_spec_order (user sys elapsed : Time.Duration) : Z :=
  let totalCPU := Float64.add (Time.Seconds user) (Time.Seconds sys) in
  let realSec := Time.Seconds elapsed in
  if Float64.gtb realSec Float64.zero then
    Float64.to_int (Float64.div (Float64.mul (Float64.of_int 100) totalCPU) realSec)
  else 0.

(** The metrics of the repository's own format tests. *)
Definition test_metrics : Metrics :=
  {| Command := "sleep 1"; UserTime := ms 500; SystemTime := ms 250;
     ElapsedTime := ms 2500; CPUPercent := 30; MaxRSS := 1024; SharedRSS := 512;
     UnsharedRSS := 0; UnsharedData := 256; UnsharedStk := 128; PageFaults := 10;
     PageReclaims := 20; Swaps := 5; BlockInput := 100; BlockOutput := 200;
     MsgsSent := 60; MsgsRecv := 50; Signals := 2; VCtxSwitches := 15;
     ICtxSwitches := 25 |}.

Definition is_digit (c : ascii) : bool :=
  (48 <=? nat_of_ascii c)%nat && (nat_of_ascii c <=? 57)%nat.

(** [dd.dd]: two digits, a point, two digits. *)
Definition is_ss_ss (s : string) : bool :=
  match s with
  | String a (String b (String p (String c (String d EmptyString)))) =>
      is_digit a && is_digit b && (p =? ".")%char && is_digit c && is_digit d
  | _ => false
  end.

(** After the leading digits of a clock text: [:dd.dd] or [:dd:dd.dd]. *)
Definition is_clock_tail (s : string) : bool :=
  match s with
  | String colon rest =>
      (colon =? ":")%char &&
      (is_ss_ss rest ||
       match rest with
       | String a (String b (String colon' rest')) =>
           is_digit a && is_digit b && (colon' =? ":")%char && is_ss_ss rest'
       | _ => false
       end)
  | EmptyString => false
  end.

Fixpoint is_clock_from (seen_digit : bool) (s : string) : bool :=
  match s with
  | EmptyString => false
  | String c rest =>
      if is_digit c then is_clock_from true rest
      else seen_digit && is_clock_tail s
  end.

(** The shapes [M:SS.SS] and [H:MM:SS.SS] of the specification: an
    unpadded decimal number, then two-digit fields. *)
Definition is_clock_text (s : string) : bool := is_clock_from false s.

(** [m] with its [UnsharedRSS] field replaced. *)
Definition with_UnsharedRSS (m : Metrics) (v : Z) : Metrics :=
  {| Command := Command m; UserTime := UserTime m; SystemTime := SystemTime m;
     ElapsedTime := ElapsedTime m; CPUPercent := CPUPercent m;
     MaxRSS := MaxRSS m; SharedRSS := SharedRSS m; UnsharedRSS := v;
     UnsharedData := UnsharedData m; UnsharedStk := UnsharedStk m;
     PageFaults := PageFaults m; PageReclaims := PageReclaims m; Swaps := Swaps m;
     BlockInput := BlockInput m; BlockOutput := BlockOutput m;
     MsgsSent := MsgsSent m; MsgsRecv := MsgsRecv m; Signals := Signals m;
     VCtxSwitches := VCtxSwitches m; ICtxSwitches := ICtxSwitches m |}.

(** The counters of the repository's format test. *)
Definition has_test_counters (m : Metrics) : Prop :=
  Swaps m = 5 /\ SharedRSS m = 512 /\ UnsharedData m = 256 /\ UnsharedStk m = 128 /\
  PageFaults m = 10 /\ PageReclaims m = 20 /\ BlockInput m = 100 /\ BlockOutput m = 200 /\
  MsgsRecv m = 50 /\ MsgsSent m = 60 /\ Signals m = 2 /\ VCtxSwitches m = 15 /\
  ICtxSwitches m = 25.

(** The timing fields of the repository's format test. *)
Definition has_test_times (m : Metrics) : Prop :=
  Command m = "sleep 1" /\ UserTime m = ms 500 /\ SystemTime m = ms 250 /\
  CPUPercent m = 30 /\ ElapsedTime m = ms 2500.

(** Every counter of [m] is zero. *)
Definition counters_zero (m : Metrics) : Prop :=
  MaxRSS m = 0 /\ SharedRSS m = 0 /\ UnsharedRSS m = 0 /\ UnsharedData m = 0 /\
  UnsharedStk m = 0 /\ PageFaults m = 0 /\ PageReclaims m = 0 /\ Swaps m = 0 /\
  BlockInput m = 0 /\ BlockOutput m = 0 /\ MsgsSent m = 0 /\ MsgsRecv m = 0 /\
  Signals m = 0 /\ VCtxSwitches m = 0 /\ ICtxSwitches m = 0.

(** The integers from [lo] on, [n] of them. *)
Fixpoint Z_upto (lo : Z) (n : nat) : list Z :=
  match n with
  | O => []
  | S n' => lo :: Z_upto (lo + 1) n'
  end.

(* ================================================================== *)
(** ** The rest of the wrapper *)
(* ================================================================== *)

(** [m] with its [Command] field replaced. *)
Definition with_Command (m : Metrics) (command : string) : Metrics :=
  {| Command := command; UserTime := UserTime m; SystemTime := SystemTime m;
     ElapsedTime := ElapsedTime m; CPUPercent := CPUPercent m;
     MaxRSS := MaxRSS m; SharedRSS := SharedRSS m; UnsharedRSS := UnsharedRSS m;
     UnsharedData := UnsharedData m; UnsharedStk := UnsharedStk m;
     PageFaults := PageFaults m; PageReclaims := PageReclaims m; Swaps := Swaps m;
     BlockInput := BlockInput m; BlockOutput := BlockOutput m;
     MsgsSent := MsgsSent m; MsgsRecv := MsgsRecv m; Signals := Signals m;
     VCtxSwitches := VCtxSwitches m; ICtxSwitches := ICtxSwitches m |}.

(** What [main] observes of [cmd.Run()]: the error returned, the process
    state left in the command, and the two clock readings around the
    call. *)
Record RunResult : Type := {
  run_err : option RunError;
  run_state : option ProcessState;
  run_start : Time.Time;
  run_end : Time.Time
}.

Definition usage_line : string := "usage: ztime <command> [arguments...]" ++ newline.

(** [main] of the stand-alone main.go, as a function of [os.Args], of the
    environment and of what running the command gives: the text written
    to standard error and the argument of [os.Exit].  The goroutine that
    relays signals acts on the child only and is left out. *)
Definition main (Args : list string) (env : Environ) (run : list string -> RunResult)
  : string * Z :=
  if (List.length Args <? 2)%nat then (usage_line, 0)
  else
    let cmdArgs := List.tl Args in
    let r := run cmdArgs in
    let metrics :=
      extractMetrics {| Cmd_ProcessState := run_state r |} (run_start r) (run_end r) cmdArgs in
    let timeFmt := Getenv env "TIMEFMT" in
    let timeFmt := if (timeFmt =? "")%string then default_TIMEFMT else timeFmt in
    let stderr := format timeFmt metrics ++ newline in
    match run_err r with
    | None => (stderr, 0)
    | Some (ExitError status) =>
        if WaitStatus.Signaled status then (stderr, 128 + WaitStatus.Signal status)
        else (stderr, WaitStatus.ExitStatus status)
    | Some (StartError message) => (stderr ++ "ztime: " ++ message ++ newline, 127)
    end.

(** The first draft of main.go, which has neither template nor signal
    translation: the argument of its [os.Exit] call. *)
Module FirstDraft.

Definition main_exit_code (err : option RunError) : Z :=
  match err with
  | None => 0
  | Some (ExitError status) => WaitStatus.ExitStatus status
  | Some (StartError _) => 1
  end.

End FirstDraft.

(** The ways a child can end that the kernel can report: an exit code of
    eight bits, or a terminating signal (a signal number other than 0 and
    127, whose wait status would read as exited or stopped). *)
Definition reportable (fate : ChildFate) : Prop :=
  match fate with
  | NotStarted _ => True
  | ExitedWith code => 0 <= code <= 255
  | KilledBy signal _ => 1 <= signal < 127
  end.

(** Two metrics values with the same fourteen counters of the usage
    record. *)
Definition same_usage_counters (a b : Metrics) : Prop :=
  MaxRSS a = MaxRSS b /\ SharedRSS a = SharedRSS b /\ UnsharedData a = UnsharedData b /\
  UnsharedStk a = UnsharedStk b /\ PageFaults a = PageFaults b /\
  PageReclaims a = PageReclaims b /\ Swaps a = Swaps b /\ BlockInput a = BlockInput b /\
  BlockOutput a = BlockOutput b /\ MsgsSent a = MsgsSent b /\ MsgsRecv a = MsgsRecv b /\
  Signals a = Signals b /\ VCtxSwitches a = VCtxSwitches b /\
  ICtxSwitches a = ICtxSwitches b.

(** A number that is not below zero: a zero, a positive number, the
    positive infinity, or a NaN. *)
Definition not_negative (x : Float64.float64) : Prop :=
  match x with
  | S754_finite s _ _ => s = false
  | S754_infinity s => s = false
  | _ => True
  end.

(* ================================================================== *)
(** ** The styled summary of the kong main.go *)
(* ================================================================== *)

(** The magnitude [m * 2^e] in thousandths, correctly rounded. *)
Definition thousandths (m : positive) (e : Z) : Z :=
  match e with
  | Zneg p => Strconv.round_half_even (Zpos m * 1000) (2 ^ Zpos p)
  | _ => Zpos m * 2 ^ e * 1000
  end.

Definition fixed3 (t : Z) : string :=
  Strconv.FormatInt (t / 1000) ++ "."
  ++ Strconv.pad_left "0" 3 (Strconv.FormatInt (t mod 1000)).

(** [strconv.AppendFloat(x, 'f', 3, 64)], the sign apart. *)
Definition FormatFloat_f3 (x : Float64.float64) : ascii * string :=
  match x with
  | S754_zero s => (Strconv.sign_char s, fixed3 0)
  | S754_finite s m e => (Strconv.sign_char s, fixed3 (thousandths m e))
  | S754_infinity s => (Strconv.sign_char s, "Inf")
  | S754_nan => (Strconv.sign_char false, "NaN")
  end.

(** The verb [%.3f]: no width, so no padding; an infinity keeps its
    sign, a NaN has none, a finite number shows only a minus sign. *)
Definition Sprintf_3f (x : Float64.float64) : string :=
  let '(sign, body) := FormatFloat_f3 x in
  match x with
  | S754_infinity _ => String sign body
  | S754_nan => body
  | _ => if Ascii.eqb sign "-" then String sign body else body
  end.

Module CliStyled.
Section Styles.

(** [Render] of the four lipgloss styles that [printSummary] builds.
    The library is not part of the sources: what a style makes of a text
    (escape sequences around it on a colour terminal, the text itself
    otherwise) is left open. *)
Variable bold : string -> string.
Variable faint : string -> string.
Variable blue : string -> string.
Variable green : string -> string.

(** The default branch of [printSummary]:
    [fmt.Sprintf("%s  %s user %s system %s cpu %s total\n", ...)] over
    the rendered fields. *)
Definition styled_summary (m : Metrics) : string :=
  faint (Command m) ++ "  "
  ++ blue (Fmt.Sprintf_2f (Time.Seconds (UserTime m)) ++ "s") ++ " user "
  ++ blue (Fmt.Sprintf_2f (Time.Seconds (SystemTime m)) ++ "s") ++ " system "
  ++ green (Strconv.FormatInt (CPUPercent m) ++ "%") ++ " cpu "
  ++ bold (Sprintf_3f (Time.Seconds (ElapsedTime m)) ++ "s") ++ " total" ++ newline.

(** [printSummary] of the kong main.go, both branches. *)
Definition printSummary (env : Environ) (m : Metrics) : string :=
  CliSummary.printSummary styled_summary env m.

End Styles.

(** A style on an output that takes no escape sequences. *)
Definition plain (text : string) : string := text.

End CliStyled.

(** [t] occurs in [s] as a run of consecutive characters. *)
Fixpoint occurs (t s : string) : bool :=
  String.prefix t s
  || match s with
     | EmptyString => false
     | String _ s' => occurs t s'
     end.

(* ================================================================== *)
(** * Properties *)
(* ================================================================== *)

(** ** Strings *)

Lemma append_assoc (a b c : string) : (a ++ b) ++ c = a ++ (b ++ c).
Proof.
  induction a as [|x a IH]; simpl; [reflexivity | now rewrite IH].
Qed.

Lemma append_nil_r (a : string) : a ++ "" = a.
Proof.
  induction a as [|x a IH]; simpl; [reflexivity | now rewrite IH].
Qed.

(** Induction on strings two characters at a time, for scans that look
    one character ahead. *)
Lemma string_ind2 (P : string -> Prop) :
  P "" ->
  (forall c, P (String c "")) ->
  (forall c c' s, P s -> P (String c' s) -> P (String c (String c' s))) ->
  forall s, P s.
Proof.
  intros H0 H1 H2 s.
  enough (P s /\ forall c, P (String c s)) by tauto.
  induction s as [|c' s [IHs IHc]]; split; auto.
Qed.

Lemma drop_all (s : string) (n : nat) :
  (String.length s <= n)%nat -> drop n s = "".
Proof.
  revert n; induction s as [|c s IH]; intros [|n] H; simpl in *; auto; try lia.
  apply IH; lia.
Qed.

Lemma drop_step (s : string) (n : nat) :
  (n < String.length s)%nat -> drop n s = String (byte_at s n) (drop (S n) s).
Proof.
  revert n; induction s as [|c s IH]; intros n H; simpl in H; [lia|].
  destruct n as [|n]; [reflexivity|].
  change (drop (S n) (String c s)) with (drop n s).
  change (drop (S (S n)) (String c s)) with (drop (S n) s).
  change (byte_at (String c s) (S n)) with (byte_at s n).
  apply IH; lia.
Qed.

(** ** The loop of [format] implements the grammar *)

(** The loop writes [i + 1] where the scan of the rest has [S i]. *)
Ltac next_index i := replace (i + 1)%nat with (S i) by lia.


Lemma handleIntSpecifier_text (out : string) (c : ascii) (m : Metrics) :
  (c =? "%")%char = false -> (c =? "J")%char = false -> (c =? "U")%char = false ->
  (c =? "S")%char = false -> (c =? "E")%char = false -> (c =? "P")%char = false ->
  handleIntSpecifier out c m =
    match specifier_text c m with
    | Some text => (true, out ++ text)
    | None => (false, out)
    end.
Proof.
  intros H1 H2 H3 H4 H5 H6.
  unfold handleIntSpecifier, specifier_text, WriteString.
  rewrite H1, H2, H3, H4, H5, H6.
  repeat match goal with
         | |- context [(c =? ?x)%char] => destruct (c =? x)%char; [reflexivity|]
         end.
  reflexivity.
Qed.

Lemma handleSpecifier_text (out : string) (c : ascii) (m : Metrics) (idx : nat) (tmpl : string) :
  (c =? "*")%char = false ->
  handleSpecifier out c m idx tmpl =
    match specifier_text c m with
    | Some text => (true, out ++ text, idx)
    | None => (false, out, idx)
    end.
Proof.
  intros Hstar.
  unfold handleSpecifier.
  rewrite Hstar.
  destruct (c =? "%")%char eqn:H1.
  { unfold specifier_text; rewrite H1; reflexivity. }
  destruct (c =? "J")%char eqn:H2.
  { unfold specifier_text; rewrite H1, H2; reflexivity. }
  destruct (c =? "U")%char eqn:H3.
  { unfold specifier_text; rewrite H1, H2, H3; reflexivity. }
  destruct (c =? "S")%char eqn:H4.
  { unfold specifier_text; rewrite H1, H2, H3, H4; reflexivity. }
  destruct (c =? "E")%char eqn:H5.
  { unfold specifier_text; rewrite H1, H2, H3, H4, H5; reflexivity. }
  destruct (c =? "P")%char eqn:H6.
  { unfold specifier_text; rewrite H1, H2, H3, H4, H5, H6; reflexivity. }
  rewrite (handleIntSpecifier_text out c m H1 H2 H3 H4 H5 H6).
  destruct (specifier_text c m); reflexivity.
Qed.

Lemma handleStar_text (out : string) (m : Metrics) (idx : nat) (tmpl : string) :
  handleStar out m idx tmpl =
    if ((idx + 1 <? String.length tmpl)%nat && (byte_at tmpl (idx + 1) =? "E")%char)%bool
    then (out ++ star_E_text (ElapsedTime m), (idx + 1)%nat)
    else (out ++ "*", idx).
Proof.
  unfold handleStar, star_E_text, WriteString, WriteByte.
  destruct (_ && _)%bool; [|reflexivity].
  destruct (0 <? _); reflexivity.
Qed.

Lemma format_loop_render (m : Metrics) (tmpl : string) :
  forall (fuel i : nat) (inPercent : bool) (out : string),
    (String.length tmpl - i <= fuel)%nat ->
    format_loop fuel tmpl m i inPercent out
    = Some (out ++ render_from inPercent (drop i tmpl) m).
Proof.
  induction fuel as [|fuel IH]; intros i inPercent out Hfuel.
  - simpl. destruct (Nat.ltb_spec i (String.length tmpl)); [lia|].
    rewrite drop_all by lia. simpl.
    destruct inPercent; [reflexivity | now rewrite append_nil_r].
  - cbn [format_loop].
    destruct (Nat.ltb_spec i (String.length tmpl)) as [Hi|Hi].
    2:{ rewrite drop_all by lia. simpl.
        destruct inPercent; [reflexivity | now rewrite append_nil_r]. }
    rewrite (drop_step tmpl i Hi).
    set (c := byte_at tmpl i).
    cbn [render_from].
    destruct inPercent.
    + destruct (c =? "*")%char eqn:Hstar.
      * unfold handleSpecifier.
        assert (Hc : c = "*"%char) by now apply Ascii.eqb_eq.
        rewrite Hc. cbn [Ascii.eqb Bool.eqb].
        rewrite handleStar_text.
        next_index i.
        destruct (Nat.ltb_spec (S i) (String.length tmpl)) as [Hlt|Hge]; cbn [andb].
        -- rewrite (drop_step tmpl (S i) Hlt).
           destruct (byte_at tmpl (S i) =? "E")%char.
           ++ rewrite IH by lia. rewrite append_assoc.
              next_index (S i). reflexivity.
           ++ rewrite IH by lia. rewrite append_assoc.
              next_index i.
              rewrite (drop_step tmpl (S i) Hlt). reflexivity.
        -- rewrite IH by lia. rewrite append_assoc.
           next_index i.
           rewrite (drop_all tmpl (S i)) by lia. reflexivity.
      * rewrite (handleSpecifier_text out c m i tmpl Hstar).
        destruct (specifier_text c m) as [text|].
        -- rewrite IH by lia. rewrite append_assoc.
           next_index i. reflexivity.
        -- rewrite IH by lia. unfold WriteByte. rewrite !append_assoc.
           next_index i. reflexivity.
    + destruct (c =? "%")%char.
      * rewrite IH by lia. next_index i. reflexivity.
      * rewrite IH by lia. unfold WriteByte. rewrite append_assoc.
        next_index i. reflexivity.
Qed.

(** The loop never runs out of fuel: [format] returns, and what it
    returns is the rendering the grammar describes. *)
Lemma format_loop_runs (tmpl : string) (m : Metrics) :
  format_loop (String.length tmpl) tmpl m 0 false "" = Some (format tmpl m).
Proof.
  unfold format. rewrite format_loop_render by lia. reflexivity.
Qed.

Lemma format_render (tmpl : string) (m : Metrics) : format tmpl m = render tmpl m.
Proof.
  unfold format. rewrite format_loop_render by lia. reflexivity.
Qed.

(** ** Rendering piece by piece *)

Lemma render_from_star_E (s : string) (m : Metrics) :
  render_from true (String "*" (String "E" s)) m
  = star_E_text (ElapsedTime m) ++ render_from false s m.
Proof. reflexivity. Qed.

Lemma render_from_star_other (s : string) (m : Metrics) :
  (forall r, s <> String "E" r) ->
  render_from true (String "*" s) m = String "*" (render_from false s m).
Proof.
  intros HE. cbn [render_from Ascii.eqb Bool.eqb].
  destruct s as [|c' s']; [reflexivity|].
  destruct (c' =? "E")%char eqn:Hc'; [|reflexivity].
  apply Ascii.eqb_eq in Hc'. subst c'. now elim (HE s').
Qed.

Lemma render_from_specifier (c : ascii) (s : string) (m : Metrics) :
  (c =? "*")%char = false ->
  render_from true (String c s) m
  = match specifier_text c m with
    | Some text => text ++ render_from false s m
    | None => String "%" (String c (render_from false s m))
    end.
Proof.
  intros Hc. cbn [render_from]. now rewrite Hc.
Qed.

(** Splitting a template at a point where the scan is between
    specifiers, or just after a percent sign. *)
Lemma render_from_split (m : Metrics) (pre : string) :
  forall inP : bool,
    (ends_in_percent inP pre = false ->
     forall rest, (forall r, rest <> String "E" r) ->
       render_from inP (pre ++ rest) m = render_from inP pre m ++ render_from false rest m)
    /\
    (ends_in_percent inP pre = true ->
     exists x, render_from inP pre m = x ++ "%" /\
       forall rest, render_from inP (pre ++ rest) m = x ++ render_from true rest m).
Proof.
  induction pre as [| c | c c' s IHs IHc's] using string_ind2; intros inP.
  - destruct inP; split; cbn [ends_in_percent]; try discriminate.
    + intros _. exists "". split; reflexivity.
    + intros _ rest _. reflexivity.
  - destruct inP; cbn [ends_in_percent].
    + split; [intros _ rest HE | discriminate].
      destruct (c =? "*")%char eqn:Hstar.
      * apply Ascii.eqb_eq in Hstar. subst c.
        change (String "*" "" ++ rest) with (String "*" rest).
        rewrite (render_from_star_other rest m HE). reflexivity.
      * change (String c "" ++ rest) with (String c rest).
        rewrite !(render_from_specifier c _ m Hstar).
        destruct (specifier_text c m) as [text|]; cbn [render_from].
        -- now rewrite append_assoc.
        -- reflexivity.
    + destruct (c =? "%")%char eqn:Hc; split; try discriminate.
      * intros _. exists "". split.
        -- cbn [render_from]. now rewrite Hc.
        -- intros rest. cbn [append render_from]. now rewrite Hc.
      * intros _ rest _. cbn [append render_from]. now rewrite Hc.
  - destruct inP.
    + (* the character [c] closes a specifier *)
      destruct (c =? "*")%char eqn:Hstar.
      * apply Ascii.eqb_eq in Hstar. subst c.
        destruct (c' =? "E")%char eqn:HE'.
        -- apply Ascii.eqb_eq in HE'. subst c'.
           change (String "*" (String "E" s) ++ ?r) with (String "*" (String "E" (s ++ r))).
           destruct (IHs false) as [IH1 IH2].
           split; intros Hend; cbn [ends_in_percent Ascii.eqb Bool.eqb] in Hend.
           ++ intros rest Hrest. rewrite !render_from_star_E.
              rewrite (IH1 Hend rest Hrest). now rewrite append_assoc.
           ++ destruct (IH2 Hend) as [x [Hx Hall]].
              exists (star_E_text (ElapsedTime m) ++ x). split.
              ** rewrite render_from_star_E, Hx. now rewrite append_assoc.
              ** intros rest.
                 change (String "*" (String "E" s) ++ rest)
                   with (String "*" (String "E" (s ++ rest))).
                 rewrite render_from_star_E, Hall. now rewrite append_assoc.
        -- assert (Hne : forall t r, String c' t <> String "E" r).
           { intros t r Heq. injection Heq as Heq _. subst c'.
             now rewrite Ascii.eqb_refl in HE'. }
           destruct (IHc's false) as [IH1 IH2].
           split; intros Hend; cbn [ends_in_percent] in Hend.
           ++ intros rest Hrest.
              change (String "*" (String c' s) ++ rest)
                with (String "*" (String c' (s ++ rest))).
              rewrite !render_from_star_other by apply Hne.
              change (String c' (s ++ rest)) with (String c' s ++ rest).
              rewrite (IH1 Hend rest Hrest). reflexivity.
           ++ destruct (IH2 Hend) as [x [Hx Hall]].
              exists (String "*" x). split.
              ** rewrite render_from_star_other by apply Hne. now rewrite Hx.
              ** intros rest.
                 change (String "*" (String c' s) ++ rest)
                   with (String "*" (String c' (s ++ rest))).
                 rewrite render_from_star_other by apply Hne.
                 change (String c' (s ++ rest)) with (String c' s ++ rest).
                 now rewrite Hall.
      * destruct (IHc's false) as [IH1 IH2].
        split; intros Hend; cbn [ends_in_percent] in Hend.
        -- intros rest Hrest.
           change (String c (String c' s) ++ rest) with (String c (String c' s ++ rest)).
           rewrite !(render_from_specifier c _ m Hstar).
           rewrite (IH1 Hend rest Hrest).
           destruct (specifier_text c m); [now rewrite append_assoc | reflexivity].
        -- destruct (IH2 Hend) as [x [Hx Hall]].
           exists (match specifier_text c m with
                   | Some text => text ++ x
                   | None => String "%" (String c x)
                   end).
           split.
           ++ rewrite (render_from_specifier c _ m Hstar), Hx.
              destruct (specifier_text c m); [now rewrite append_assoc | reflexivity].
           ++ intros rest.
              change (String c (String c' s) ++ rest) with (String c (String c' s ++ rest)).
              rewrite (render_from_specifier c _ m Hstar), Hall.
              destruct (specifier_text c m); [now rewrite append_assoc | reflexivity].
    + (* the character [c] is read between specifiers *)
      assert (Hstep : forall t, render_from false (String c t) m
                = if (c =? "%")%char then render_from true t m
                  else String c (render_from false t m)) by reflexivity.
      destruct (IHc's (c =? "%")%char) as [IH1 IH2].
      split; intros Hend; cbn [ends_in_percent] in Hend.
      * intros rest Hrest.
        change (String c (String c' s) ++ rest) with (String c (String c' s ++ rest)).
        rewrite !Hstep.
        destruct (c =? "%")%char; rewrite (IH1 Hend rest Hrest); reflexivity.
      * destruct (IH2 Hend) as [x [Hx Hall]].
        exists (if (c =? "%")%char then x else String c x).
        split.
        -- rewrite Hstep. destruct (c =? "%")%char; rewrite Hx; reflexivity.
        -- intros rest.
           change (String c (String c' s) ++ rest) with (String c (String c' s ++ rest)).
           rewrite Hstep. destruct (c =? "%")%char; rewrite Hall; reflexivity.
Qed.

Lemma render_split_complete (m : Metrics) (pre rest : string) :
  complete pre ->
  (forall r, rest <> String "E" r) ->
  render (pre ++ rest) m = render pre m ++ render rest m.
Proof.
  intros Hpre Hrest. unfold render.
  now apply (proj1 (render_from_split m pre false)).
Qed.

Lemma recognized_false (c : ascii) (m : Metrics) :
  recognized c = false ->
  (c =? "*")%char = false /\ (c =? "%")%char = false /\ specifier_text c m = None.
Proof.
  unfold recognized, specifier_chars. cbn [existsb].
  intros H.
  repeat match type of H with
         | (_ || _)%bool = false => apply orb_false_iff in H; destruct H as [? H]
         end.
  repeat split; try assumption.
  unfold specifier_text.
  repeat match goal with
         | Hx : (c =? ?x)%char = false |- context [(c =? ?x)%char] => rewrite Hx
         end.
  reflexivity.
Qed.

Lemma recognized_true (c : ascii) (m : Metrics) :
  recognized c = true ->
  (c =? "*")%char = true \/ exists text, specifier_text c m = Some text.
Proof.
  intros H.
  destruct (c =? "*")%char eqn:Hstar; [now left | right].
  destruct (specifier_text c m) as [text|] eqn:Htext; [now exists text|].
  exfalso. revert H. unfold recognized, specifier_chars. cbn [existsb].
  unfold specifier_text in Htext.
  repeat match type of Htext with
         | (if (c =? ?x)%char then _ else _) = None =>
             destruct (c =? x)%char; [discriminate Htext|]
         end.
  rewrite Hstar. discriminate.
Qed.

Lemma render_trailing_percent (m : Metrics) (pre : string) :
  exists out, render (pre ++ "%") m = out ++ "%".
Proof.
  unfold render.
  destruct (ends_in_percent false pre) eqn:Hend.
  - destruct (proj2 (render_from_split m pre false) Hend) as [x [Hx Hall]].
    exists x. now rewrite Hall.
  - exists (render_from false pre m).
    now rewrite (proj1 (render_from_split m pre false) Hend) by discriminate.
Qed.

Lemma render_unknown_at (m : Metrics) (c : ascii) (pre post : string) :
  recognized c = false ->
  render (pre ++ String "%" (String c post)) m
  = render (pre ++ "%") m ++ String c (render post m).
Proof.
  intros Hc. destruct (recognized_false c m Hc) as [Hstar [Hpercent Hnone]].
  unfold render.
  destruct (ends_in_percent false pre) eqn:Hend.
  - destruct (proj2 (render_from_split m pre false) Hend) as [x [Hx Hall]].
    rewrite !Hall. cbn [render_from Ascii.eqb Bool.eqb].
    change (specifier_text "%" m) with (Some "%").
    rewrite Hpercent. now rewrite !append_assoc.
  - pose proof (proj1 (render_from_split m pre false) Hend) as Hsplit.
    rewrite !Hsplit by discriminate.
    cbn [render_from Ascii.eqb Bool.eqb]. rewrite Hstar, Hnone.
    now rewrite append_assoc.
Qed.

Lemma render_specifier_at (m : Metrics) (c : ascii) (text pre post : string) :
  complete pre ->
  specifier_text c m = Some text ->
  render (pre ++ String "%" (String c post)) m = render pre m ++ text ++ render post m.
Proof.
  intros Hpre Htext.
  rewrite render_split_complete by (assumption || discriminate).
  f_equal. unfold render. cbn [render_from Ascii.eqb Bool.eqb].
  destruct (c =? "*")%char eqn:Hstar.
  - apply Ascii.eqb_eq in Hstar. subst c. discriminate.
  - now rewrite Htext.
Qed.

Lemma specifier_text_with_UnsharedRSS (c : ascii) (m : Metrics) (v : Z) :
  specifier_text c (with_UnsharedRSS m v) = specifier_text c m.
Proof. reflexivity. Qed.

Lemma render_from_with_UnsharedRSS (m : Metrics) (v : Z) (t : string) :
  forall inP, render_from inP t (with_UnsharedRSS m v) = render_from inP t m.
Proof.
  induction t as [| c | c c' s IHs IHc's] using string_ind2; intros inP.
  - reflexivity.
  - destruct inP; cbn [render_from]; rewrite ?specifier_text_with_UnsharedRSS; reflexivity.
  - destruct inP.
    + destruct (c =? "*")%char eqn:Hstar.
      * apply Ascii.eqb_eq in Hstar. subst c.
        destruct (c' =? "E")%char eqn:HE.
        -- apply Ascii.eqb_eq in HE. subst c'.
           rewrite !render_from_star_E, (IHs false). reflexivity.
        -- assert (Hne : forall r, String c' s <> String "E" r).
           { intros r Heq. injection Heq as Heq _. subst c'.
             now rewrite Ascii.eqb_refl in HE. }
           rewrite !render_from_star_other by exact Hne.
           rewrite (IHc's false). reflexivity.
      * rewrite !(render_from_specifier c _ _ Hstar).
        rewrite specifier_text_with_UnsharedRSS, (IHc's false). reflexivity.
    + change (render_from false (String c (String c' s)) ?x)
        with (if (c =? "%")%char then render_from true (String c' s) x
              else String c (render_from false (String c' s) x)).
      rewrite (IHc's true), (IHc's false). reflexivity.
Qed.

(** ** The formatter *)

(** C7: for every template that contains no percent sign and every
    metrics value, the rendering is the template itself: characters other
    than the percent sign are copied to the output unchanged. *)
Theorem format_no_percent (t : string) (m : Metrics)
    (Hplain : contains_char "%" t = false) :
  format t m = t.
Proof.
  rewrite format_render. unfold render.
  induction t as [|c t IH]; [reflexivity|].
  cbn [contains_char] in Hplain. apply orb_false_iff in Hplain as [Hc Ht].
  cbn [render_from]. rewrite Hc, (IH Ht). reflexivity.
Qed.

Lemma format_no_percent_witness :
  contains_char "%" "real 1.5s" = false /\ format "real 1.5s" test_metrics = "real 1.5s".
Proof.
  split; [reflexivity | apply (format_no_percent "real 1.5s" test_metrics); reflexivity].
Defined.

(** C8: for every metrics value, two percent signs in a row, met where
    the scan is between specifiers, render as one literal percent sign;
    in particular the template [100%%] renders as [100%]. *)
Theorem format_percent_percent (m : Metrics) (pre post : string)
    (Hpre : complete pre) :
  format (pre ++ "%%" ++ post) m = format pre m ++ "%" ++ format post m
  /\ format "100%%" m = "100%".
Proof.
  split; [|reflexivity].
  rewrite !format_render.
  now apply (render_specifier_at m "%" "%" pre post).
Qed.

Lemma format_percent_percent_witness :
  complete "cpu " /\
  format ("cpu " ++ "%%" ++ " used") test_metrics
  = format "cpu " test_metrics ++ "%" ++ format " used" test_metrics.
Proof.
  split; [reflexivity|].
  apply (proj1 (format_percent_percent test_metrics "cpu " " used" eq_refl)).
Defined.

(** C4: for every metrics value and every character [c] outside the
    table of specifiers, a percent sign followed by [c] is rendered as the
    percent sign followed by [c], nothing raised and nothing dropped (so
    [%Z] renders as [%Z]); and a template whose last character is a
    percent sign renders to a text whose last character is that percent
    sign. *)
Theorem format_unknown_specifier (m : Metrics) (c : ascii) (pre post : string)
    (Hc : recognized c = false) :
  format (pre ++ String "%" (String c post)) m
    = format (pre ++ "%") m ++ String c (format post m)
  /\ (exists out, format (pre ++ "%") m = out ++ "%")
  /\ (complete pre ->
      format (pre ++ "%") m = format pre m ++ "%"
      /\ format (pre ++ String "%" (String c post)) m
         = format pre m ++ String "%" (String c (format post m)))
  /\ format "%Z" m = "%Z".
Proof.
  rewrite !format_render.
  assert (Hat := render_unknown_at m c pre post Hc).
  repeat split.
  - exact Hat.
  - apply render_trailing_percent.
  - rewrite render_split_complete by (assumption || discriminate). reflexivity.
  - rewrite Hat. rewrite render_split_complete by (assumption || discriminate).
    rewrite append_assoc. reflexivity.
Qed.

Lemma format_unknown_specifier_witness :
  recognized "Z" = false /\
  format ("took " ++ String "%" (String "Z" "!")) test_metrics
  = format ("took " ++ "%") test_metrics ++ String "Z" (format "!" test_metrics).
Proof.
  split; [reflexivity|].
  apply (proj1 (format_unknown_specifier test_metrics "Z" "took " "!" eq_refl)).
Defined.

Lemma wrap_in_range (z : Z) : Int64.in_range z -> Int64.wrap z = z.
Proof.
  unfold Int64.in_range, Int64.wrap, Int64.min_int, Int64.max_int.
  intros H. rewrite Z.mod_small; lia.
Qed.

(** C6: for every metrics value, each integer specifier renders the
    decimal text of its field ([%M] MaxRSS, [%W] Swaps, [%X] SharedRSS,
    [%F] PageFaults, [%R] PageReclaims, [%I] BlockInput, [%O] BlockOutput,
    [%r] MsgsRecv, [%s] MsgsSent, [%k] Signals, [%w] VCtxSwitches, [%c]
    ICtxSwitches) and the derived ones render sums ([%D] UnsharedData +
    UnsharedStk, [%K] SharedRSS + UnsharedData + UnsharedStk, 64-bit
    sums that are the exact sums whenever those fit); the counters of the
    format test render as [5 512 384 896 10 20 100 200 50 60 2 15 25]. *)
Theorem format_int_specifiers (m : Metrics) (pre post : string)
    (Hpre : complete pre) :
  let at_ (c : ascii) := format (pre ++ String "%" (String c post)) m in
  let put (z : Z) := format pre m ++ Strconv.FormatInt z ++ format post m in
  (at_ "M"%char = put (MaxRSS m) /\ at_ "W"%char = put (Swaps m) /\ at_ "X"%char = put (SharedRSS m) /\
   at_ "F"%char = put (PageFaults m) /\ at_ "R"%char = put (PageReclaims m) /\
   at_ "I"%char = put (BlockInput m) /\ at_ "O"%char = put (BlockOutput m) /\
   at_ "r"%char = put (MsgsRecv m) /\ at_ "s"%char = put (MsgsSent m) /\ at_ "k"%char = put (Signals m) /\
   at_ "w"%char = put (VCtxSwitches m) /\ at_ "c"%char = put (ICtxSwitches m))
  /\ (at_ "D"%char = put (Int64.add (UnsharedData m) (UnsharedStk m)) /\
      at_ "K"%char = put (Int64.add (Int64.add (SharedRSS m) (UnsharedData m)) (UnsharedStk m)))
  /\ (Int64.in_range (UnsharedData m + UnsharedStk m) ->
      at_ "D"%char = put (UnsharedData m + UnsharedStk m))
  /\ (Int64.in_range (SharedRSS m + UnsharedData m) ->
      Int64.in_range (SharedRSS m + UnsharedData m + UnsharedStk m) ->
      at_ "K"%char = put (SharedRSS m + UnsharedData m + UnsharedStk m))
  /\ (has_test_counters m ->
      format "%W %X %D %K %F %R %I %O %r %s %k %w %c" m
      = "5 512 384 896 10 20 100 200 50 60 2 15 25").
Proof.
  intros at_ put. subst at_ put. cbv beta.
  assert (Hat : forall c z, specifier_text c m = Some (Strconv.FormatInt z) ->
            format (pre ++ String "%" (String c post)) m
            = format pre m ++ Strconv.FormatInt z ++ format post m).
  { intros c z Hz. rewrite !format_render. now apply render_specifier_at. }
  repeat split; try (apply Hat; reflexivity).
  - intros Hsum. rewrite <- (wrap_in_range _ Hsum). apply Hat. reflexivity.
  - intros Hsum1 Hsum2. rewrite <- (wrap_in_range _ Hsum2).
    rewrite <- (wrap_in_range _ Hsum1) at 1. apply Hat. reflexivity.
  - unfold has_test_counters. destruct m; cbn. intros H.
    decompose [and] H. subst. vm_compute. reflexivity.
Qed.

Lemma format_int_specifiers_witness :
  complete "rss " /\
  format ("rss " ++ String "%" (String "M" "KB")) test_metrics
  = format "rss " test_metrics ++ Strconv.FormatInt (MaxRSS test_metrics)
    ++ format "KB" test_metrics.
Proof.
  split; [reflexivity|].
  apply (proj1 (proj1 (format_int_specifiers test_metrics "rss " "KB" eq_refl))).
Defined.

(** ** Template selection *)

(** The stand-alone main.go: when the variable [TIMEFMT] is unset or
    empty it renders the default template
    [%J  %U user %S system %P cpu %*E total]; on the timing fields of the
    format test that template renders as
    [sleep 1  0.50s user 0.25s system 30% cpu 0:02.50 total]. *)
Theorem default_template (env : Environ) (m : Metrics)
    (Henv : env "TIMEFMT" = None \/ env "TIMEFMT" = Some "") :
  main_timeFmt env = "%J  %U user %S system %P cpu %*E total"
  /\ main_summary env m
     = format "%J  %U user %S system %P cpu %*E total" m ++ newline
  /\ (has_test_times m ->
      format "%J  %U user %S system %P cpu %*E total" m
      = "sleep 1  0.50s user 0.25s system 30% cpu 0:02.50 total").
Proof.
  assert (Hfmt : main_timeFmt env = default_TIMEFMT).
  { unfold main_timeFmt, Getenv. destruct Henv as [-> | ->]; reflexivity. }
  repeat split.
  - exact Hfmt.
  - unfold main_summary. now rewrite Hfmt.
  - unfold has_test_times. destruct m; cbn. intros H.
    decompose [and] H. subst. vm_compute. reflexivity.
Qed.

Lemma default_template_witness :
  ((fun _ : string => @None string) "TIMEFMT" = None \/
   (fun _ : string => @None string) "TIMEFMT" = Some "") /\
  main_summary (fun _ => None) test_metrics
  = format "%J  %U user %S system %P cpu %*E total" test_metrics ++ newline.
Proof.
  split; [left; reflexivity|].
  apply (proj1 (proj2 (default_template (fun _ => None) test_metrics
                          (or_introl eq_refl)))).
Defined.

(** With [TIMEFMT] set to a non-empty template both main.go drafts write
    the same line. *)
Lemma printSummary_with_template (styled : Metrics -> string) (env : Environ)
    (t : string) (m : Metrics) :
  env "TIMEFMT" = Some t -> t <> "" ->
  CliSummary.printSummary styled env m = main_summary env m
  /\ main_summary env m = format t m ++ newline.
Proof.
  intros Henv Ht.
  unfold CliSummary.printSummary, main_summary, main_timeFmt, Getenv.
  rewrite Henv. apply String.eqb_neq in Ht. rewrite Ht. cbn. split; reflexivity.
Qed.

(** Without a template the kong draft leaves the line to the styled
    summary. *)
Lemma printSummary_without_template (styled : Metrics -> string) (env : Environ)
    (m : Metrics) :
  env "TIMEFMT" = None \/ env "TIMEFMT" = Some "" ->
  CliSummary.printSummary styled env m = styled m.
Proof.
  intros Henv. unfold CliSummary.printSummary, Getenv.
  destruct Henv as [-> | ->]; reflexivity.
Qed.

(** Where the text of a summary line is. *)
Lemma prefix_app (t b : string) : String.prefix t (t ++ b) = true.
Proof.
  induction t as [|c t IH]; [now destruct b|].
  cbn. destruct (ascii_dec c c) as [_ | Hne]; [exact IH | now elim Hne].
Qed.

Lemma occurs_app (t a b : string) : occurs t (a ++ t ++ b) = true.
Proof.
  induction a as [|c a IH].
  - change ("" ++ t ++ b) with (t ++ b).
    destruct (t ++ b) eqn:Htb; cbn [occurs];
      rewrite <- Htb, prefix_app; reflexivity.
  - change (String c a ++ t ++ b) with (String c (a ++ t ++ b)).
    cbn [occurs]. rewrite IH. apply orb_true_r.
Qed.

(** C5 holds in the stand-alone main.go and fails in the kong main.go.
    With [TIMEFMT] unset or empty, on the timing fields of the format
    test, the stand-alone [main] writes the default template's line
    [sleep 1  0.50s user 0.25s system 30% cpu 0:02.50 total];
    [printSummary] never formats the default template there: it writes
    its own line, in which the elapsed time is [2.500s], printed with
    [%.3f], and not the clock [0:02.50] of [%*E].  Whatever the four
    styles make of their texts, as long as the bold one keeps the text
    [2.500s] it is given, the line differs from the default template's. *)
Theorem printSummary_default_styled (bold faint blue green : string -> string)
    (env : Environ) (m : Metrics)
    (Henv : env "TIMEFMT" = None \/ env "TIMEFMT" = Some "")
    (Hm : has_test_times m)
    (Hbold : exists a b, bold "2.500s" = a ++ "2.500s" ++ b) :
  main_summary env m
  = "sleep 1  0.50s user 0.25s system 30% cpu 0:02.50 total" ++ newline
  /\ CliStyled.printSummary bold faint blue green env m
     = faint "sleep 1" ++ "  " ++ blue "0.50s" ++ " user " ++ blue "0.25s"
       ++ " system " ++ green "30%" ++ " cpu " ++ bold "2.500s" ++ " total" ++ newline
  /\ CliStyled.printSummary bold faint blue green env m
     <> format default_TIMEFMT m ++ newline.
Proof.
  assert (Hmain : main_summary env m
                  = "sleep 1  0.50s user 0.25s system 30% cpu 0:02.50 total" ++ newline).
  { destruct (default_template env m Henv) as [_ [-> Hfmt]]. now rewrite (Hfmt Hm). }
  assert (Hdef : format default_TIMEFMT m ++ newline
                 = "sleep 1  0.50s user 0.25s system 30% cpu 0:02.50 total" ++ newline).
  { destruct (default_template env m Henv) as [_ [_ Hfmt]].
    unfold default_TIMEFMT. now rewrite (Hfmt Hm). }
  assert (Hstyled : CliStyled.printSummary bold faint blue green env m
                    = faint "sleep 1" ++ "  " ++ blue "0.50s" ++ " user " ++ blue "0.25s"
                      ++ " system " ++ green "30%" ++ " cpu " ++ bold "2.500s"
                      ++ " total" ++ newline).
  { unfold CliStyled.printSummary.
    rewrite (printSummary_without_template _ env m Henv).
    unfold CliStyled.styled_summary.
    destruct Hm as [-> [-> [-> [-> ->]]]]. reflexivity. }
  split; [exact Hmain|]. split; [exact Hstyled|].
  rewrite Hstyled, Hdef. destruct Hbold as [a [b ->]]. intros Heq.
  assert (Hocc : occurs "2.500s"
                   ((faint "sleep 1" ++ "  " ++ blue "0.50s" ++ " user " ++ blue "0.25s"
                     ++ " system " ++ green "30%" ++ " cpu " ++ a)
                    ++ "2.500s" ++ (b ++ " total" ++ newline)) = true)
    by apply occurs_app.
  rewrite !append_assoc in Hocc. rewrite !append_assoc in Heq.
  rewrite Heq in Hocc.
  vm_compute in Hocc. discriminate.
Qed.

Lemma printSummary_default_styled_witness :
  CliStyled.printSummary CliStyled.plain CliStyled.plain CliStyled.plain CliStyled.plain
    (fun _ => None) test_metrics
  = "sleep 1  0.50s user 0.25s system 30% cpu 2.500s total" ++ newline
  /\ CliStyled.printSummary CliStyled.plain CliStyled.plain CliStyled.plain CliStyled.plain
       (fun _ => None) test_metrics
     <> format default_TIMEFMT test_metrics ++ newline.
Proof.
  assert (Hm : has_test_times test_metrics) by (repeat split).
  assert (Hbold : exists a b, CliStyled.plain "2.500s" = a ++ "2.500s" ++ b)
    by (exists "", ""; reflexivity).
  exact (proj2 (printSummary_default_styled CliStyled.plain CliStyled.plain
                  CliStyled.plain CliStyled.plain (fun _ => None) test_metrics
                  (or_introl eq_refl) Hm Hbold)).
Defined.

(** ** Extraction of the metrics *)

Lemma extractMetrics_agree (cmd : Cmd) (start end_ : Time.Time) (args : list string) :
  Cli.extractMetrics cmd start end_ args = extractMetrics cmd start end_ args.
Proof. reflexivity. Qed.

Lemma Sub_exact (t u : Time.Time) :
  Int64.in_range (Time.mono t - Time.mono u) ->
  Time.Sub t u = Time.mono t - Time.mono u.
Proof.
  intros H. unfold Time.Sub, Int64.sub. rewrite (wrap_in_range _ H).
  destruct (Z.ltb_spec (Time.mono t - Time.mono u) 0);
    destruct (Z.ltb_spec (Time.mono u) (Time.mono t));
    destruct (Z.ltb_spec 0 (Time.mono t - Time.mono u));
    destruct (Z.ltb_spec (Time.mono t) (Time.mono u)); cbn; lia.
Qed.

(** C9: when the child never started (the process state is nil) the
    extracted metrics still carry the command, the arguments joined by
    single spaces, and the elapsed time, end minus start, while the user
    time, the system time, the CPU share and every counter are zero. *)
Theorem extractMetrics_not_started (cmd : Cmd) (start end_ : Time.Time)
    (args : list string) (Hnil : Cmd_ProcessState cmd = None) :
  let m := extractMetrics cmd start end_ args in
  Command m = Join args " "
  /\ ElapsedTime m = Time.Sub end_ start
  /\ (Int64.in_range (Time.mono end_ - Time.mono start) ->
      ElapsedTime m = Time.mono end_ - Time.mono start)
  /\ UserTime m = 0 /\ SystemTime m = 0 /\ CPUPercent m = 0
  /\ counters_zero m
  /\ Cli.extractMetrics cmd start end_ args = m.
Proof.
  cbv zeta. unfold extractMetrics. rewrite Hnil. cbn.
  repeat split; try reflexivity.
  - apply Sub_exact.
  - unfold Cli.extractMetrics. now rewrite Hnil.
Qed.

Lemma extractMetrics_not_started_witness :
  Cmd_ProcessState {| Cmd_ProcessState := None |} = None /\
  Command (extractMetrics {| Cmd_ProcessState := None |}
             {| Time.mono := 1000 |} {| Time.mono := 4500 |} ["no-such-program"; "-v"])
  = Join ["no-such-program"; "-v"] " ".
Proof.
  split; [reflexivity|].
  apply (proj1 (extractMetrics_not_started {| Cmd_ProcessState := None |}
                  {| Time.mono := 1000 |} {| Time.mono := 4500 |}
                  ["no-such-program"; "-v"] eq_refl)).
Defined.

(** C10: no operation assigns the UnsharedRSS field (the usage extractor
    fills the other fourteen counters and keeps this one) and no
    specifier reads it: it is zero in every extracted metrics value, and
    the rendering of any template does not depend on it. *)
Theorem UnsharedRSS_unused :
  (forall cmd start end_ args,
      UnsharedRSS (extractMetrics cmd start end_ args) = 0
      /\ UnsharedRSS (Cli.extractMetrics cmd start end_ args) = 0)
  /\ (forall m state, UnsharedRSS (populateUsage m state) = UnsharedRSS m)
  /\ (forall m usage, UnsharedRSS (copy_usage m usage) = UnsharedRSS m)
  /\ (forall tmpl m v, format tmpl (with_UnsharedRSS m v) = format tmpl m).
Proof.
  split; [|split; [|split]].
  - intros cmd start end_ args. split.
    + unfold extractMetrics.
      destruct (Cmd_ProcessState cmd) as [state|]; [|reflexivity].
      destruct (PS_SysUsage state); reflexivity.
    + unfold Cli.extractMetrics, populateUsage.
      destruct (Cmd_ProcessState cmd) as [state|]; [|reflexivity].
      destruct (PS_SysUsage state); reflexivity.
  - intros m state. unfold populateUsage. destruct (PS_SysUsage state); reflexivity.
  - reflexivity.
  - intros tmpl m v. rewrite !format_render. apply render_from_with_UnsharedRSS.
Qed.

(** ** Exit status *)

Lemma Z_upto_all (P : Z -> bool) (n : nat) :
  forall lo, forallb P (Z_upto lo n) = true ->
             forall z, lo <= z < lo + Z.of_nat n -> P z = true.
Proof.
  induction n as [|n IH]; intros lo Hall z Hz.
  - lia.
  - cbn [Z_upto forallb] in Hall. apply andb_true_iff in Hall as [Hlo Hrest].
    destruct (Z.eq_dec z lo) as [-> | Hne]; [exact Hlo|].
    apply (IH (lo + 1) Hrest). lia.
Qed.

(** C2: if the child exits normally with code [c] the wrapper exits with
    [c]; if the child was terminated by signal [n] the wrapper exits with
    [128 + n], so with 130 for the interrupt signal; if the command could
    not be started the wrapper exits with the fixed non-zero code 127,
    which no child supplied.  All these codes fit the eight bits of an
    exit status. *)
Theorem main_exit_status (c n : Z) (dumped_core : bool) (message : string)
    (Hc : 0 <= c <= 255) (Hn : 1 <= n < 127) :
  main_exit_code (Run (ExitedWith c)) = c
  /\ main_exit_code (Run (KilledBy n dumped_core)) = 128 + n
  /\ main_exit_code (Run (KilledBy SIGINT dumped_core)) = 130
  /\ (Run (NotStarted message) = Some (StartError message)
      /\ main_exit_code (Run (NotStarted message)) = 127 /\ 127 <> 0)
  /\ 0 <= 128 + n <= 255.
Proof.
  repeat split; try reflexivity; try lia.
  - apply Z.eqb_eq.
    apply (Z_upto_all (fun c => main_exit_code (Run (ExitedWith c)) =? c) 256 0);
      [vm_compute; reflexivity | lia].
  - apply Z.eqb_eq.
    apply (Z_upto_all
             (fun n => main_exit_code (Run (KilledBy n dumped_core)) =? 128 + n) 126 1);
      [destruct dumped_core; vm_compute; reflexivity | lia].
  - destruct dumped_core; reflexivity.
Qed.

Lemma main_exit_status_witness :
  0 <= 3 <= 255 /\ 1 <= 15 < 127 /\
  main_exit_code (Run (ExitedWith 3)) = 3 /\
  main_exit_code (Run (KilledBy 15 false)) = 128 + 15.
Proof.
  assert (H3 : 0 <= 3 <= 255) by lia.
  assert (H15 : 1 <= 15 < 127) by lia.
  pose proof (main_exit_status 3 15 false "" H3 H15) as H.
  split; [exact H3|]. split; [exact H15|].
  split; [exact (proj1 H) | exact (proj1 (proj2 H))].
Defined.

(** A child that itself exits with 127 gives the wrapper the status it
    also uses when nothing could be started. *)
Lemma exit_127_is_shared :
  main_exit_code (Run (ExitedWith 127)) = main_exit_code (Run (NotStarted "")).
Proof. reflexivity. Qed.

(** ** Binary64 arithmetic: the sign of a duration in seconds *)

Lemma digits2_pos_size (m : positive) : digits2_pos m = Pos.size m.
Proof.
  induction m as [m IH | m IH |]; cbn; now rewrite ?IH.
Qed.

Lemma Zdigits2_log2 (m : positive) : Zdigits2 (Zpos m) = Z.log2 (Zpos m) + 1.
Proof.
  cbn [Zdigits2]. rewrite digits2_pos_size.
  destruct m as [m | m |]; cbn [Z.log2 Pos.size]; lia.
Qed.

Lemma Zdigits2_bounds (m : positive) :
  2 ^ (Zdigits2 (Zpos m) - 1) <= Zpos m < 2 ^ Zdigits2 (Zpos m).
Proof.
  rewrite Zdigits2_log2.
  replace (Z.log2 (Zpos m) + 1 - 1) with (Z.log2 (Zpos m)) by lia.
  replace (Z.log2 (Zpos m) + 1) with (Z.succ (Z.log2 (Zpos m))) by lia.
  apply Z.log2_spec. lia.
Qed.

Lemma Zdigits2_pos (m : positive) : 1 <= Zdigits2 (Zpos m).
Proof.
  rewrite Zdigits2_log2. pose proof (Z.log2_nonneg (Zpos m)). lia.
Qed.

Lemma shr_1_m (mrs : shr_record) :
  0 <= shr_m mrs -> shr_m (shr_1 mrs) = shr_m mrs / 2.
Proof.
  destruct mrs as [m r s]. cbn [shr_m]. intros Hm.
  destruct m as [|p|p]; [reflexivity | | lia].
  destruct p as [p|p|]; cbn [shr_1 shr_m].
  - rewrite Pos2Z.inj_xI. apply Z.div_unique with (r := 1); lia.
  - rewrite Pos2Z.inj_xO. apply Z.div_unique with (r := 0); lia.
  - reflexivity.
Qed.

Lemma iter_shr_1_m (p : positive) :
  forall mrs, 0 <= shr_m mrs ->
              shr_m (iter_pos shr_1 p mrs) = shr_m mrs / 2 ^ Zpos p.
Proof.
  induction p as [p IH | p IH |]; intros mrs Hm; cbn [iter_pos].
  - assert (H1 : 0 <= shr_m (shr_1 mrs)).
    { rewrite shr_1_m by assumption. apply Z.div_pos; lia. }
    assert (H2 : 0 <= shr_m (iter_pos shr_1 p (shr_1 mrs))).
    { rewrite IH by assumption. apply Z.div_pos; lia. }
    rewrite IH, IH, shr_1_m by assumption.
    rewrite !Z.div_div by lia. f_equal.
    rewrite Pos2Z.inj_xI, Z.add_1_r, Z.pow_succ_r, Z.pow_twice_r by lia.
    reflexivity.
  - assert (H2 : 0 <= shr_m (iter_pos shr_1 p mrs)).
    { rewrite IH by assumption. apply Z.div_pos; lia. }
    rewrite IH, IH by assumption.
    rewrite !Z.div_div by lia. f_equal.
    rewrite (Pos2Z.inj_xO p), Z.pow_twice_r. reflexivity.
  - rewrite shr_1_m by assumption. reflexivity.
Qed.

Lemma shr_record_of_loc_m (m : Z) (l : location) : shr_m (shr_record_of_loc m l) = m.
Proof. destruct l as [|[]]; reflexivity. Qed.

(** Shifting a positive mantissa to its format exponent leaves it
    positive as long as the number is not below the format's range, and
    the exponent reached is within the format. *)
Lemma shr_fexp_positive (m : positive) (e : Z) (l : location) :
  -1074 < Zdigits2 (Zpos m) + e ->
  0 < shr_m (fst (shr_fexp 53 1024 (Zpos m) e l))
  /\ -1074 <= snd (shr_fexp 53 1024 (Zpos m) e l).
Proof.
  intros Hmag. unfold shr_fexp, shr, fexp, emin.
  pose proof (Zdigits2_bounds m) as [Hlo _].
  pose proof (Zdigits2_pos m) as Hd.
  set (d := Zdigits2 (Zpos m)) in *.
  destruct (Z.max (d + e - 53) (3 - 1024 - 53) - e) as [|n|n] eqn:Hn;
    cbn [fst snd]; rewrite ?shr_record_of_loc_m.
  - split; lia.
  - rewrite iter_shr_1_m by (rewrite shr_record_of_loc_m; lia).
    rewrite shr_record_of_loc_m. split; [|lia].
    apply Z.div_str_pos. split; [apply Z.pow_pos_nonneg; lia|].
    apply Z.le_trans with (2 ^ (d - 1)); [|exact Hlo].
    apply Z.pow_le_mono_r; lia.
  - split; lia.
Qed.

Lemma round_nearest_even_ge (m : Z) (l : location) : m <= round_nearest_even m l.
Proof.
  destruct l as [|[]]; cbn [round_nearest_even]; try lia.
  destruct (Z.even m); lia.
Qed.

(** Rounding a positive number that is not below the range of the format
    gives a positive number. *)
Lemma binary_round_aux_positive (m : positive) (e : Z) (l : location) :
  -1074 < Zdigits2 (Zpos m) + e ->
  Float64.is_positive (binary_round_aux 53 1024 false (Zpos m) e l).
Proof.
  intros Hmag. unfold binary_round_aux.
  destruct (shr_fexp_positive m e l Hmag) as [Hm1 He1].
  destruct (shr_fexp 53 1024 (Zpos m) e l) as [mrs1 e1]. cbn [fst snd] in Hm1, He1.
  pose proof (round_nearest_even_ge (shr_m mrs1) (loc_of_shr_record mrs1)) as Hge.
  destruct (round_nearest_even (shr_m mrs1) (loc_of_shr_record mrs1)) as [|q|q]; try lia.
  assert (Hmag2 : -1074 < Zdigits2 (Zpos q) + e1).
  { pose proof (Zdigits2_pos q). lia. }
  destruct (shr_fexp_positive q e1 loc_Exact Hmag2) as [Hm2 He2].
  destruct (shr_fexp 53 1024 (Zpos q) e1 loc_Exact) as [mrs2 e2]. cbn [fst snd] in Hm2, He2.
  destruct (shr_m mrs2) as [|q2|q2]; try lia.
  destruct (e2 <=? 1024 - 53); cbn; [exact He2 | exact I].
Qed.

(** Rounding keeps a negative sign. *)
Lemma binary_round_aux_nonpositive (m e : Z) (l : location) :
  Float64.is_nonpositive (binary_round_aux 53 1024 true m e l).
Proof.
  unfold binary_round_aux.
  destruct (shr_fexp 53 1024 m e l) as [mrs1 e1].
  destruct (shr_fexp 53 1024 _ e1 loc_Exact) as [mrs2 e2].
  destruct (shr_m mrs2); [exact I | | exact I].
  destruct (e2 <=? 1024 - 53); exact eq_refl.
Qed.

Lemma binary_round_positive (m : positive) (e : Z) :
  -1074 <= e -> Float64.is_positive (binary_round 53 1024 false m e).
Proof.
  intros He. unfold binary_round, shl_align, fexp, emin.
  destruct (Z.max (Z.pos (digits2_pos m) + e - 53) (3 - 1024 - 53) - e) as [|d|d] eqn:Hd.
  - apply binary_round_aux_positive. pose proof (Zdigits2_pos m). lia.
  - apply binary_round_aux_positive. pose proof (Zdigits2_pos m). lia.
  - apply binary_round_aux_positive.
    pose proof (Zdigits2_pos (Pos.iter xO m d)). lia.
Qed.

Lemma binary_round_nonpositive (m : positive) (e : Z) :
  Float64.is_nonpositive (binary_round 53 1024 true m e).
Proof.
  unfold binary_round. destruct (shl_align m e _) as [mz ez].
  apply binary_round_aux_nonpositive.
Qed.

Lemma of_int_positive (z : Z) : 0 < z -> Float64.is_positive (Float64.of_int z).
Proof.
  intros Hz. destruct z as [|p|p]; try lia.
  apply binary_round_positive. lia.
Qed.

Lemma of_int_nonpositive (z : Z) : z <= 0 -> Float64.is_nonpositive (Float64.of_int z).
Proof.
  intros Hz. destruct z as [|p|p]; try lia.
  - exact I.
  - apply binary_round_nonpositive.
Qed.

Lemma digits2_pos_iter_xO (m d : positive) :
  Zpos (digits2_pos (Pos.iter xO m d)) = Zpos (digits2_pos m) + Zpos d.
Proof.
  rewrite Pos2Nat.inj_iter.
  rewrite <- (positive_nat_Z d).
  induction (Pos.to_nat d) as [|n IH]; cbn [nat_rect].
  - cbn. lia.
  - cbn [digits2_pos]. rewrite Pos2Z.inj_succ, IH, Nat2Z.inj_succ. lia.
Qed.

(** A mantissa of exactly 53 digits with an exponent of the format is
    already rounded. *)
Lemma binary_round_aux_53 (s : bool) (m : positive) (e : Z) :
  Zdigits2 (Zpos m) = 53 -> -1074 <= e <= 971 ->
  binary_round_aux 53 1024 s (Zpos m) e loc_Exact = S754_finite s m e.
Proof.
  intros Hd He. unfold binary_round_aux, shr_fexp. rewrite Hd.
  assert (H0 : fexp 53 1024 (53 + e) - e = 0) by (unfold fexp, emin; lia).
  rewrite H0. cbn [shr shr_record_of_loc shr_m loc_of_shr_record round_nearest_even].
  rewrite Hd, H0. cbn [shr shr_record_of_loc shr_m].
  destruct (Z.leb_spec e (1024 - 53)); [reflexivity | lia].
Qed.

(** [float64(z)] is exact for a positive [z] of at most 53 bits: the
    mantissa is [z] shifted up to 53 digits. *)
Lemma of_int_small (p : positive) :
  Zdigits2 (Zpos p) <= 53 ->
  exists m, Float64.of_int (Zpos p) = S754_finite false m (Zdigits2 (Zpos p) - 53)
            /\ Zdigits2 (Zpos m) = 53.
Proof.
  intros Hd. pose proof (Zdigits2_pos p) as Hd1.
  unfold Float64.of_int, Float64.prec, Float64.emax, binary_normalize, binary_round, shl_align.
  cbn [Zdigits2] in *.
  assert (Hf : fexp 53 1024 (Zpos (digits2_pos p) + 0) = Zpos (digits2_pos p) - 53)
    by (unfold fexp, emin; lia).
  rewrite Hf.
  destruct (Zpos (digits2_pos p) - 53 - 0) as [|d|d] eqn:Hshift; try lia.
  - exists p. replace (Zpos (digits2_pos p) - 53) with 0 by lia.
    split; [|cbn [Zdigits2]; lia].
    apply binary_round_aux_53; cbn [Zdigits2]; lia.
  - exists (Pos.iter xO p d).
    assert (Hd53 : Zdigits2 (Zpos (Pos.iter xO p d)) = 53).
    { cbn [Zdigits2]. rewrite digits2_pos_iter_xO. lia. }
    split; [|exact Hd53].
    apply binary_round_aux_53; [exact Hd53 | lia].
Qed.

Lemma of_int_1e9 :
  Float64.of_int 1000000000 = S754_finite false 8388608000000000 (-23).
Proof. vm_compute. reflexivity. Qed.

(** A count of nanoseconds below one second, divided by [1e9], is a
    positive number. *)
Lemma div_1e9_positive (n : Z) :
  0 < n < 1000000000 ->
  Float64.is_positive (Float64.div (Float64.of_int n) (Float64.of_int 1000000000)).
Proof.
  intros Hn. destruct n as [|p|p]; try lia.
  assert (Hdp : Zdigits2 (Zpos p) <= 30).
  { rewrite Zdigits2_log2.
    assert (Z.log2 (Zpos p) < 30) by (apply Z.log2_lt_pow2; lia). lia. }
  pose proof (Zdigits2_pos p) as Hd1.
  destruct (of_int_small p) as [mx [Hx Hmx]]; [lia|].
  rewrite Hx, of_int_1e9.
  set (ex := Zdigits2 (Zpos p) - 53) in *.
  unfold Float64.div, Float64.prec, Float64.emax, SFdiv, SFdiv_core_binary.
  rewrite Hmx.
  change (Zdigits2 (Zpos 8388608000000000)) with 53.
  assert (He' : Z.min (fexp 53 1024 (53 + ex - (53 + -23))) (ex - -23) = ex - 30)
    by (unfold fexp, emin; lia).
  rewrite He'.
  replace (ex - -23 - (ex - 30)) with 53 by lia.
  cbv iota.
  pose proof (Zdigits2_bounds mx) as [Hlo _]. rewrite Hmx in Hlo.
  assert (Hq : 0 < Z.shiftl (Zpos mx) 53 / 8388608000000000).
  { apply Z.div_str_pos. rewrite Z.shiftl_mul_pow2 by lia.
    change (2 ^ (53 - 1)) with 4503599627370496 in Hlo.
    change (2 ^ 53) with 9007199254740992. lia. }
  unfold Z.div in Hq.
  destruct (Z.div_eucl (Z.shiftl (Zpos mx) 53) 8388608000000000) as [q r].
  cbn [fst] in Hq. destruct q as [|q|q]; try lia.
  cbn [xorb].
  apply binary_round_aux_positive.
  pose proof (Zdigits2_pos q). lia.
Qed.

Lemma div_1e9_nonpositive (x : Float64.float64) :
  Float64.is_nonpositive x ->
  Float64.is_nonpositive (Float64.div x (Float64.of_int 1000000000)).
Proof.
  rewrite of_int_1e9.
  destruct x as [s | s | | s m e]; cbn [Float64.is_nonpositive]; intros Hx;
    try exact I; try (subst s; exact eq_refl).
  subst s. unfold Float64.div, SFdiv.
  destruct (SFdiv_core_binary _ _ _ _ _ _) as [[mz ez] lz].
  apply binary_round_aux_nonpositive.
Qed.

Lemma add_positive (x y : Float64.float64) :
  Float64.is_positive x ->
  Float64.is_positive y \/ (exists s, y = S754_zero s) ->
  Float64.is_positive (Float64.add x y).
Proof.
  intros Hx Hy.
  destruct x as [sx | [|] | | [|] mx ex]; cbn in Hx; try contradiction;
    destruct Hy as [Hy | [s ->]];
    try (destruct y as [sy | [|] | | [|] my ey]; cbn in Hy; try contradiction);
    try exact I; try exact Hx; try exact Hy.
  unfold Float64.add, Float64.prec, Float64.emax, SFadd.
  cbn [cond_Zopp Z.add binary_normalize].
  apply binary_round_positive. lia.
Qed.

Lemma add_nonpositive (x y : Float64.float64) :
  Float64.is_nonpositive x -> Float64.is_nonpositive y ->
  Float64.is_nonpositive (Float64.add x y).
Proof.
  intros Hx Hy.
  destruct x as [sx | sx | | sx mx ex]; destruct y as [sy | sy | | sy my ey];
    cbn in Hx, Hy; subst; try exact I; try exact eq_refl.
  - destruct sx, sy; exact I.
  - unfold Float64.add, Float64.prec, Float64.emax, SFadd.
    cbn [cond_Zopp Z.add Z.opp binary_normalize].
    apply binary_round_nonpositive.
Qed.

Lemma gtb_zero_positive (x : Float64.float64) :
  Float64.is_positive x -> Float64.gtb x Float64.zero = true.
Proof.
  destruct x as [s | [|] | | [|] m e]; cbn; intros H; try contradiction; reflexivity.
Qed.

Lemma gtb_zero_nonpositive (x : Float64.float64) :
  Float64.is_nonpositive x -> Float64.gtb x Float64.zero = false.
Proof.
  destruct x as [s | s | | s m e]; cbn; intros H; subst; reflexivity.
Qed.

Lemma Seconds_positive (d : Time.Duration) :
  0 < d -> Float64.is_positive (Time.Seconds d).
Proof.
  intros Hd. unfold Time.Seconds.
  change Time.Second with 1000000000.
  pose proof (Z.quot_rem' d 1000000000) as Hqr.
  assert (Hr : 0 <= Z.rem d 1000000000 < 1000000000) by (apply Z.rem_bound_pos; lia).
  assert (Hq : 0 <= Z.quot d 1000000000) by (apply Z.quot_pos; lia).
  destruct (Z.eq_dec (Z.rem d 1000000000) 0) as [Hr0 | Hr0].
  - rewrite Hr0. apply add_positive.
    + apply of_int_positive. lia.
    + right. exists false. reflexivity.
  - assert (Hy : Float64.is_positive
                   (Float64.div (Float64.of_int (Z.rem d 1000000000))
                      (Float64.of_int 1000000000)))
      by (apply div_1e9_positive; lia).
    destruct (Z.eq_dec (Z.quot d 1000000000) 0) as [Hq0 | Hq0].
    + rewrite Hq0. change (Float64.of_int 0) with (S754_zero false).
      destruct (Float64.div _ _) as [s | [|] | | [|] m e]; cbn in Hy; try contradiction;
        exact Hy.
    + apply add_positive; [apply of_int_positive; lia | now left].
Qed.

Lemma Seconds_nonpositive (d : Time.Duration) :
  d <= 0 -> Float64.is_nonpositive (Time.Seconds d).
Proof.
  intros Hd. unfold Time.Seconds.
  change Time.Second with 1000000000.
  assert (Hr : Z.rem d 1000000000 <= 0) by (apply Z.rem_nonpos; lia).
  assert (Hq : Z.quot d 1000000000 <= 0).
  { rewrite <- (Z.opp_involutive d), Z.quot_opp_l by lia.
    assert (0 <= Z.quot (- d) 1000000000) by (apply Z.quot_pos; lia). lia. }
  apply add_nonpositive.
  - now apply of_int_nonpositive.
  - apply div_1e9_nonpositive. now apply of_int_nonpositive.
Qed.

(** Go's test [elapsed.Seconds() > 0] is the test [elapsed > 0]. *)
Lemma Seconds_gtb_zero (d : Time.Duration) :
  Float64.gtb (Time.Seconds d) Float64.zero = (0 <? d).
Proof.
  destruct (Z.ltb_spec 0 d).
  - apply gtb_zero_positive. now apply Seconds_positive.
  - apply gtb_zero_nonpositive. now apply Seconds_nonpositive.
Qed.

(** ** The CPU share *)

(** C1, as the specification words it, fails.  For 7ms of user time over
    25ms of wall time the exact quotient is 28, and so is the binary64
    value of [100 * total / elapsed]; but the wrapper computes
    [(total / elapsed) * 100], whose binary64 value
    [7881299347898367 * 2^-48] is one unit in the last place below 28,
    and reports 27.  For 290ms over one second it reports 28 where the
    exact quotient is 29. *)
Lemma calculateCPUPercent_not_exact :
  calculateCPUPercent (ms 7) 0 (ms 25) = 27
  /\ cpu_percent_exact (ms 7) 0 (ms 25) = 28
  /\ cpu_percent_spec_order (ms 7) 0 (ms 25) = 28
  /\ calculateCPUPercent (ms 7) 0 (ms 25) <> cpu_percent_exact (ms 7) 0 (ms 25)
  /\ Float64.mul
       (Float64.div (Float64.add (Time.Seconds (ms 7)) (Time.Seconds 0))
          (Time.Seconds (ms 25)))
       (Float64.of_int 100)
     = S754_finite false 7881299347898367 (-48)
  /\ Float64.of_int 28 = S754_finite false 7881299347898368 (-48)
  /\ calculateCPUPercent (ms 290) 0 (ms 1000) = 28
  /\ cpu_percent_exact (ms 290) 0 (ms 1000) = 29.
Proof.
  repeat split; try (vm_compute; reflexivity).
  vm_compute. discriminate.
Qed.

(** C1, amended: for every user, system and elapsed time the result is
    zero when the elapsed time is not positive, and otherwise the integer
    part of the binary64 number [((u.Seconds + s.Seconds) / e.Seconds) * 100],
    each operation rounded to nearest; it is not clamped, and on the four
    inputs of the specification it is 100, 0, 2 and 250. *)
Theorem calculateCPUPercent_float (user sys elapsed : Time.Duration) :
  calculateCPUPercent user sys elapsed
  = (if 0 <? elapsed then
       Float64.to_int
         (Float64.mul
            (Float64.div (Float64.add (Time.Seconds user) (Time.Seconds sys))
               (Time.Seconds elapsed))
            (Float64.of_int 100))
     else 0)
  /\ (~ 0 < elapsed -> calculateCPUPercent user sys elapsed = 0)
  /\ calculateCPUPercent (ms 500) (ms 500) (ms 1000) = 100
  /\ calculateCPUPercent (ms 500) (ms 500) 0 = 0
  /\ calculateCPUPercent (ms 10) (ms 10) (ms 1000) = 2
  /\ calculateCPUPercent (ms 2000) (ms 500) (ms 1000) = 250
  /\ 100 < calculateCPUPercent (ms 2000) (ms 500) (ms 1000).
Proof.
  assert (Hcalc : calculateCPUPercent user sys elapsed
                  = if 0 <? elapsed then
                      Float64.to_int
                        (Float64.mul
                           (Float64.div
                              (Float64.add (Time.Seconds user) (Time.Seconds sys))
                              (Time.Seconds elapsed))
                           (Float64.of_int 100))
                    else 0).
  { unfold calculateCPUPercent. now rewrite Seconds_gtb_zero. }
  split; [exact Hcalc|].
  split.
  { intros Hneg. rewrite Hcalc. destruct (Z.ltb_spec 0 elapsed); [contradiction | reflexivity]. }
  repeat split; vm_compute; reflexivity.
Qed.

Lemma calculateCPUPercent_float_witness :
  ~ 0 < 0 /\ calculateCPUPercent (ms 500) (ms 500) 0 = 0.
Proof.
  split; [lia|].
  apply (proj1 (proj2 (calculateCPUPercent_float (ms 500) (ms 500) 0))). lia.
Defined.

(** ** The elapsed time as a clock *)

Lemma format_star (m : Metrics) (pre post : string) :
  complete pre ->
  format (pre ++ "%*E" ++ post) m
    = format pre m ++ star_E_text (ElapsedTime m) ++ format post m
  /\ ((forall r, post <> String "E" r) ->
      format (pre ++ "%*" ++ post) m = format pre m ++ "*" ++ format post m).
Proof.
  intros Hpre. rewrite !format_render. split.
  - rewrite render_split_complete by (assumption || discriminate).
    reflexivity.
  - intros Hpost.
    rewrite render_split_complete by (assumption || discriminate).
    unfold render.
    change ("%*" ++ post) with (String "%" (String "*" post)).
    change (render_from false (String "%" (String "*" post)) m)
      with (render_from true (String "*" post) m).
    now rewrite render_from_star_other.
Qed.

Lemma format_star_examples (m : Metrics) :
  (ElapsedTime m = ms 2500 -> format "%*E" m = "0:02.50")
  /\ (ElapsedTime m = 3661 * Time.Second -> format "%*E" m = "1:01:01.00")
  /\ format "%*" m = "*"
  /\ format "%*x" m = "*x"
  /\ is_clock_text "0:02.50" = true
  /\ is_clock_text "1:01:01.00" = true.
Proof.
  repeat split; try reflexivity; destruct m; cbn; intros ->; vm_compute; reflexivity.
Qed.

(** C3 fails on long runs.  After 183 days and 59.999999999 seconds the
    minute count [d.Minutes()] rounds up to the next whole minute in
    binary64, the seconds left over come out as the negative number
    [-2^-29], and [%*E] is rendered with the seconds field [-0.00], which
    is not of the shape [H:MM:SS.SS]. *)
Theorem format_star_E_negative_seconds :
  let d := 183 * 24 * Time.Hour + 59999999999 in
  d = 15811259999999999
  /\ Time.Hour <= d
  /\ Int64.in_range d
  /\ Z.quot d Time.Minute = 263520
  /\ Float64.to_int (Time.Minutes d) = 263521
  /\ Float64.sub (Time.Seconds d)
       (Float64.of_int (Int64.mul (Float64.to_int (Time.Minutes d)) 60))
     = S754_finite true 4503599627370496 (-81)
  /\ format "%*E" (Metrics_literal "" d) = "4392:01:-0.00"
  /\ is_clock_text (format "%*E" (Metrics_literal "" d)) = false.
Proof.
  cbv zeta. repeat split; try (vm_compute; reflexivity); vm_compute; discriminate.
Qed.

(* ================================================================== *)
(** * Further properties of the wrapper *)
(* ================================================================== *)

(** ** The formatter, piece by piece *)

Lemma ends_in_percent_app (pre rest : string) :
  forall b, ends_in_percent b (pre ++ rest) = ends_in_percent (ends_in_percent b pre) rest.
Proof.
  induction pre as [|c pre IH]; intros b; [reflexivity|].
  cbn [append ends_in_percent]. destruct b; apply IH.
Qed.

(** X1: templates concatenate.  When no specifier is left open at the end
    of [pre] and [rest] does not begin with the letter E (which a star at
    the end of [pre] would take), rendering [pre ++ rest] is rendering
    [pre], then [rest]; and the whole leaves no specifier open if [rest]
    leaves none. *)
Theorem format_concat (m : Metrics) (pre rest : string)
    (Hpre : complete pre) (Hrest : forall r, rest <> String "E" r) :
  format (pre ++ rest) m = format pre m ++ format rest m
  /\ (complete rest -> complete (pre ++ rest)).
Proof.
  split.
  - rewrite !format_render. now apply render_split_complete.
  - unfold complete in *. intros Hc. now rewrite ends_in_percent_app, Hpre.
Qed.

Lemma format_concat_witness :
  complete "%U user " /\ (forall r, "%S system" <> String "E" r) /\
  format ("%U user " ++ "%S system") test_metrics
  = format "%U user " test_metrics ++ format "%S system" test_metrics.
Proof.
  assert (H1 : complete "%U user ") by reflexivity.
  assert (H2 : forall r, "%S system" <> String "E" r) by (intros r; discriminate).
  split; [exact H1|]. split; [exact H2|].
  exact (proj1 (format_concat test_metrics "%U user " "%S system" H1 H2)).
Defined.

(** X2: wherever they open in a template, [%J] stands for the command,
    [%U], [%S] and [%E] for the user, system and elapsed seconds printed
    with two decimals and the letter s, and [%P] for the CPU share in
    decimal followed by a percent sign. *)
Theorem format_time_specifiers (m : Metrics) (pre post : string)
    (Hpre : complete pre) :
  let at_ (c : ascii) := format (pre ++ String "%" (String c post)) m in
  let put (text : string) := format pre m ++ text ++ format post m in
  at_ "J"%char = put (Command m)
  /\ at_ "U"%char = put (Fmt.Sprintf_2f (Time.Seconds (UserTime m)) ++ "s")
  /\ at_ "S"%char = put (Fmt.Sprintf_2f (Time.Seconds (SystemTime m)) ++ "s")
  /\ at_ "E"%char = put (Fmt.Sprintf_2f (Time.Seconds (ElapsedTime m)) ++ "s")
  /\ at_ "P"%char = put (Strconv.Itoa (CPUPercent m) ++ "%").
Proof.
  cbv zeta. rewrite !format_render.
  repeat split; apply render_specifier_at; (assumption || reflexivity).
Qed.

Lemma format_time_specifiers_witness :
  complete "took " /\
  format ("took " ++ String "%" (String "E" "!")) test_metrics
  = format "took " test_metrics
    ++ (Fmt.Sprintf_2f (Time.Seconds (ElapsedTime test_metrics)) ++ "s")
    ++ format "!" test_metrics.
Proof.
  split; [reflexivity|].
  exact (proj1 (proj2 (proj2 (proj2
           (format_time_specifiers test_metrics "took " "!" eq_refl))))).
Defined.

(** X3: the star looks one character ahead.  Between specifiers, [%*E]
    takes both characters and stands for the elapsed clock text; a star
    followed by any other character, or by nothing, is a literal star and
    that character is read afresh. *)
Theorem format_star_lookahead (m : Metrics) (pre post : string) (c : ascii)
    (Hpre : complete pre) (Hc : c <> "E"%char) :
  format (pre ++ "%*E" ++ post) m
    = format pre m ++ star_E_text (ElapsedTime m) ++ format post m
  /\ format (pre ++ "%*" ++ String c post) m
     = format pre m ++ "*" ++ format (String c post) m
  /\ format (pre ++ "%*") m = format pre m ++ "*".
Proof.
  destruct (format_star m pre post Hpre) as [HE _].
  split; [exact HE|]. split.
  - apply (proj2 (format_star m pre (String c post) Hpre)).
    intros r Heq. injection Heq as Heq _. contradiction.
  - assert (Hnil : forall r, "" <> String "E" r) by discriminate.
    exact (proj2 (format_star m pre "" Hpre) Hnil).
Qed.

Lemma format_star_lookahead_witness :
  complete "t=" /\ "x"%char <> "E"%char /\
  format ("t=" ++ "%*" ++ String "x" "y") test_metrics
  = format "t=" test_metrics ++ "*" ++ format (String "x" "y") test_metrics.
Proof.
  assert (H1 : complete "t=") by reflexivity.
  assert (H2 : "x"%char <> "E"%char) by discriminate.
  split; [exact H1|]. split; [exact H2|].
  exact (proj1 (proj2 (format_star_lookahead test_metrics "t=" "y" "x" H1 H2))).
Defined.

(** ** The specifier switch *)

(** X4: [handleSpecifier] reports a character as handled exactly when it
    is one of the twenty-one specifier characters; for any other
    character it leaves the buffer and the index as they were, so that
    [format] can write the percent sign and the character itself. *)
Theorem handleSpecifier_handled (out : string) (c : ascii) (m : Metrics)
    (idx : nat) (tmpl : string) :
  fst (fst (handleSpecifier out c m idx tmpl)) = recognized c
  /\ (recognized c = false -> handleSpecifier out c m idx tmpl = (false, out, idx)).
Proof.
  destruct (recognized c) eqn:Hrec.
  - split; [|discriminate].
    destruct (recognized_true c m Hrec) as [Hstar | [text Htext]].
    + apply Ascii.eqb_eq in Hstar. subst c.
      unfold handleSpecifier. cbn [Ascii.eqb Bool.eqb].
      destruct (handleStar out m idx tmpl). reflexivity.
    + assert (Hstar : (c =? "*")%char = false).
      { destruct (c =? "*")%char eqn:H; [|reflexivity].
        apply Ascii.eqb_eq in H. subst c. discriminate. }
      rewrite (handleSpecifier_text out c m idx tmpl Hstar), Htext. reflexivity.
  - destruct (recognized_false c m Hrec) as [Hstar [_ Hnone]].
    rewrite (handleSpecifier_text out c m idx tmpl Hstar), Hnone.
    split; [reflexivity | reflexivity].
Qed.

(** X5: [handleSpecifier] only ever appends to the buffer, and it moves
    the index by at most one, staying inside the template: it moves it
    only for a star that is followed by the letter E. *)
Theorem handleSpecifier_appends (out : string) (c : ascii) (m : Metrics)
    (idx : nat) (tmpl : string) (Hidx : (idx < String.length tmpl)%nat) :
  let r := handleSpecifier out c m idx tmpl in
  (exists text, snd (fst r) = out ++ text)
  /\ (snd r < String.length tmpl)%nat
  /\ (snd r = idx
      \/ (snd r = S idx /\ c = "*"%char /\ byte_at tmpl (S idx) = "E"%char)).
Proof.
  cbv zeta.
  destruct (c =? "*")%char eqn:Hstar.
  - apply Ascii.eqb_eq in Hstar. subst c.
    unfold handleSpecifier. cbn [Ascii.eqb Bool.eqb].
    rewrite handleStar_text.
    replace (idx + 1)%nat with (S idx) by lia.
    destruct (Nat.ltb_spec (S idx) (String.length tmpl)) as [Hlt | Hge]; cbn [andb].
    + destruct (byte_at tmpl (S idx) =? "E")%char eqn:HE; cbn [fst snd].
      * apply Ascii.eqb_eq in HE.
        split; [eexists; reflexivity|]. split; [exact Hlt|]. right. auto.
      * split; [eexists; reflexivity|]. split; [exact Hidx|]. now left.
    + cbn [fst snd]. split; [eexists; reflexivity|]. split; [exact Hidx|]. now left.
  - rewrite (handleSpecifier_text out c m idx tmpl Hstar).
    destruct (specifier_text c m) as [text|]; cbn [fst snd].
    + split; [eexists; reflexivity|]. split; [exact Hidx|]. now left.
    + split; [exists ""; now rewrite append_nil_r|]. split; [exact Hidx|]. now left.
Qed.

Lemma handleSpecifier_appends_witness :
  (1 < String.length "%*E")%nat /\
  (snd (handleSpecifier "" "*" test_metrics 1 "%*E") < String.length "%*E")%nat.
Proof.
  assert (H : (1 < String.length "%*E")%nat) by (cbn; lia).
  split; [exact H|].
  exact (proj1 (proj2 (handleSpecifier_appends "" "*" test_metrics 1 "%*E" H))).
Defined.

Lemma specifier_text_with_Command (c : ascii) (m : Metrics) (command : string) :
  (c =? "J")%char = false ->
  specifier_text c (with_Command m command) = specifier_text c m.
Proof.
  intros HJ. unfold specifier_text. rewrite HJ. reflexivity.
Qed.

Lemma render_from_with_Command (m : Metrics) (command : string) (t : string) :
  contains_char "J" t = false ->
  forall inP, render_from inP t (with_Command m command) = render_from inP t m.
Proof.
  induction t as [| c | c c' s IHs IHc's] using string_ind2; intros HJ inP.
  - reflexivity.
  - cbn [contains_char] in HJ. apply orb_false_iff in HJ as [Hc _].
    destruct inP; cbn [render_from];
      rewrite ?(specifier_text_with_Command c m command Hc); reflexivity.
  - cbn [contains_char] in HJ. apply orb_false_iff in HJ as [Hc HJ'].
    assert (HJs : contains_char "J" s = false).
    { cbn [contains_char] in HJ'. now apply orb_false_iff in HJ' as [_ ?]. }
    destruct inP.
    + destruct (c =? "*")%char eqn:Hstar.
      * apply Ascii.eqb_eq in Hstar. subst c.
        destruct (c' =? "E")%char eqn:HE.
        -- apply Ascii.eqb_eq in HE. subst c'.
           rewrite !render_from_star_E, (IHs HJs false). reflexivity.
        -- assert (Hne : forall r, String c' s <> String "E" r).
           { intros r Heq. injection Heq as Heq _. subst c'.
             now rewrite Ascii.eqb_refl in HE. }
           rewrite !render_from_star_other by exact Hne.
           rewrite (IHc's HJ' false). reflexivity.
      * rewrite !(render_from_specifier c _ _ Hstar).
        rewrite (specifier_text_with_Command c m command Hc), (IHc's HJ' false).
        reflexivity.
    + change (render_from false (String c (String c' s)) ?x)
        with (if (c =? "%")%char then render_from true (String c' s) x
              else String c (render_from false (String c' s) x)).
      rewrite (IHc's HJ' true), (IHc's HJ' false). reflexivity.
Qed.

(** X6: a template in which the letter J does not occur never shows the
    command: its rendering is the same whatever the command is. *)
Theorem format_without_J (tmpl : string) (m : Metrics) (command : string)
    (HJ : contains_char "J" tmpl = false) :
  format tmpl (with_Command m command) = format tmpl m.
Proof.
  rewrite !format_render. now apply render_from_with_Command.
Qed.

Lemma format_without_J_witness :
  contains_char "J" "%U user %P cpu" = false /\
  format "%U user %P cpu" (with_Command test_metrics "make -j8")
  = format "%U user %P cpu" test_metrics.
Proof.
  split; [reflexivity|].
  exact (format_without_J "%U user %P cpu" test_metrics "make -j8" eq_refl).
Defined.

Lemma FormatInt_inj (a b : Z) : Strconv.FormatInt a = Strconv.FormatInt b -> a = b.
Proof.
  unfold Strconv.FormatInt. intros H.
  apply DecimalZ.to_int_inj.
  assert (Hback : forall z, NilZero.int_of_string (NilZero.string_of_int (Z.to_int z))
                            = Some (Z.to_int z)).
  { intros z. apply NilZero.isi; destruct z; cbn [Z.to_int]; intros Heq;
      try discriminate; injection Heq; apply DecimalPos.Unsigned.to_uint_nonnil. }
  pose proof (Hback a) as Ha. rewrite H, Hback in Ha. now injection Ha.
Qed.

(** X7: the decimal text of a counter determines the counter: two metrics
    whose renderings of [%M] agree have the same maximum resident set
    size, and likewise for [%W], [%F] and [%R]. *)
Theorem format_counter_injective (m m' : Metrics) :
  (format "%M" m = format "%M" m' -> MaxRSS m = MaxRSS m')
  /\ (format "%W" m = format "%W" m' -> Swaps m = Swaps m')
  /\ (format "%F" m = format "%F" m' -> PageFaults m = PageFaults m')
  /\ (format "%R" m = format "%R" m' -> PageReclaims m = PageReclaims m').
Proof.
  rewrite !format_render.
  change (render "%M" m) with (Strconv.FormatInt (MaxRSS m) ++ "").
  change (render "%M" m') with (Strconv.FormatInt (MaxRSS m') ++ "").
  change (render "%W" m) with (Strconv.FormatInt (Swaps m) ++ "").
  change (render "%W" m') with (Strconv.FormatInt (Swaps m') ++ "").
  change (render "%F" m) with (Strconv.FormatInt (PageFaults m) ++ "").
  change (render "%F" m') with (Strconv.FormatInt (PageFaults m') ++ "").
  change (render "%R" m) with (Strconv.FormatInt (PageReclaims m) ++ "").
  change (render "%R" m') with (Strconv.FormatInt (PageReclaims m') ++ "").
  rewrite !append_nil_r.
  repeat split; apply FormatInt_inj.
Qed.

Lemma format_counter_injective_witness :
  format "%M" test_metrics = format "%M" (with_Command test_metrics "ls") /\
  MaxRSS test_metrics = MaxRSS (with_Command test_metrics "ls").
Proof.
  assert (H : format "%M" test_metrics = format "%M" (with_Command test_metrics "ls"))
    by reflexivity.
  split; [exact H|].
  exact (proj1 (format_counter_injective test_metrics (with_Command test_metrics "ls")) H).
Defined.

(** ** The CPU share, continued *)

Lemma add_comm (x y : Float64.float64) : Float64.add x y = Float64.add y x.
Proof.
  unfold Float64.add, SFadd.
  destruct x as [sx | sx | | sx mx ex]; destruct y as [sy | sy | | sy my ey];
    try reflexivity; try (destruct sx, sy; reflexivity).
  rewrite (Z.min_comm ey ex). f_equal. apply Z.add_comm.
Qed.

(** X8: the share does not tell user time from system time: swapping
    the two gives the same percentage. *)
Theorem calculateCPUPercent_symmetric (user sys elapsed : Time.Duration) :
  calculateCPUPercent user sys elapsed = calculateCPUPercent sys user elapsed.
Proof.
  unfold calculateCPUPercent.
  now rewrite (add_comm (Time.Seconds user) (Time.Seconds sys)).
Qed.

(** X9: a child that used no CPU time is reported at 0%, whatever the
    elapsed time. *)
Theorem calculateCPUPercent_idle (elapsed : Time.Duration) :
  calculateCPUPercent 0 0 elapsed = 0.
Proof.
  unfold calculateCPUPercent. rewrite Seconds_gtb_zero.
  destruct (Z.ltb_spec 0 elapsed) as [Hpos | Hneg]; [|reflexivity].
  pose proof (Seconds_positive elapsed Hpos) as Hreal.
  change (Float64.add (Time.Seconds 0) (Time.Seconds 0)) with (S754_zero false).
  destruct (Time.Seconds elapsed) as [s | [|] | | [|] mr er]; cbn in Hreal;
    try contradiction; reflexivity.
Qed.

Lemma binary_round_aux_not_negative (m e : Z) (l : location) :
  not_negative (binary_round_aux 53 1024 false m e l).
Proof.
  unfold binary_round_aux.
  destruct (shr_fexp 53 1024 m e l) as [mrs1 e1].
  destruct (shr_fexp 53 1024 _ e1 loc_Exact) as [mrs2 e2].
  destruct (shr_m mrs2); [exact I | | exact I].
  destruct (e2 <=? 1024 - 53); exact eq_refl.
Qed.

Lemma is_positive_not_negative (x : Float64.float64) :
  Float64.is_positive x -> not_negative x.
Proof.
  destruct x as [s | [|] | | [|] m e]; cbn; intros H; try contradiction; reflexivity.
Qed.

Lemma Seconds_not_negative (d : Time.Duration) :
  0 <= d -> not_negative (Time.Seconds d).
Proof.
  intros Hd. destruct (Z.eq_dec d 0) as [-> | Hne]; [exact I|].
  apply is_positive_not_negative, Seconds_positive. lia.
Qed.

Lemma add_not_negative (x y : Float64.float64) :
  not_negative x -> not_negative y -> not_negative (Float64.add x y).
Proof.
  intros Hx Hy.
  destruct x as [sx | sx | | sx mx ex]; destruct y as [sy | sy | | sy my ey];
    cbn in Hx, Hy; subst; try exact I; try exact eq_refl.
  - destruct sx, sy; exact I.
  - unfold Float64.add, Float64.prec, Float64.emax, SFadd.
    cbn [cond_Zopp Z.add binary_normalize].
    unfold binary_round. destruct (shl_align _ _ _) as [mz ez].
    apply binary_round_aux_not_negative.
Qed.

Lemma div_not_negative (x y : Float64.float64) :
  not_negative x -> Float64.is_positive y -> not_negative (Float64.div x y).
Proof.
  intros Hx Hy.
  destruct y as [sy | [|] | | [|] my ey]; cbn in Hy; try contradiction;
    destruct x as [sx | sx | | sx mx ex]; cbn in Hx; subst; try exact I;
    try exact eq_refl.
  unfold Float64.div, SFdiv.
  destruct (SFdiv_core_binary _ _ _ _ _ _) as [[mz ez] lz].
  apply binary_round_aux_not_negative.
Qed.

Lemma mul_100_not_negative (x : Float64.float64) :
  not_negative x -> not_negative (Float64.mul x (Float64.of_int 100)).
Proof.
  intros Hx.
  change (Float64.of_int 100) with (S754_finite false 7036874417766400 (-46)).
  destruct x as [sx | sx | | sx mx ex]; cbn in Hx; subst; try exact I;
    try exact eq_refl.
  unfold Float64.mul, SFmul. apply binary_round_aux_not_negative.
Qed.

Lemma to_int_not_negative (x : Float64.float64) :
  not_negative x -> 0 <= Float64.to_int x \/ Float64.to_int x = Int64.min_int.
Proof.
  intros Hx. unfold Float64.to_int.
  destruct x as [s | s | | s m e]; cbn [Float64.trunc]; try (now right).
  - left. reflexivity.
  - cbn in Hx. subst s.
    set (a := match e with
              | Zneg p => Z.shiftr (Zpos m) (Zpos p)
              | _ => Z.shiftl (Zpos m) e
              end).
    assert (Ha : 0 <= a).
    { subst a. destruct e; [apply Z.shiftl_nonneg | apply Z.shiftl_nonneg
                           | apply Z.shiftr_nonneg]; lia. }
    destruct (Int64.in_rangeb a); [now left | now right].
Qed.

(** X10: for times that are not negative the share is never a negative
    percentage; the only other value it can take is the result of
    converting a number too large for [int]. *)
Theorem calculateCPUPercent_not_negative (user sys elapsed : Time.Duration)
    (Huser : 0 <= user) (Hsys : 0 <= sys) :
  0 <= calculateCPUPercent user sys elapsed
  \/ calculateCPUPercent user sys elapsed = Int64.min_int.
Proof.
  unfold calculateCPUPercent. rewrite Seconds_gtb_zero.
  destruct (Z.ltb_spec 0 elapsed) as [Hpos | Hneg]; [|left; lia].
  apply to_int_not_negative, mul_100_not_negative, div_not_negative.
  - apply add_not_negative; now apply Seconds_not_negative.
  - now apply Seconds_positive.
Qed.

Lemma calculateCPUPercent_not_negative_witness :
  0 <= ms 7 /\ 0 <= ms 3 /\
  (0 <= calculateCPUPercent (ms 7) (ms 3) (ms 25)
   \/ calculateCPUPercent (ms 7) (ms 3) (ms 25) = Int64.min_int).
Proof.
  assert (H1 : 0 <= ms 7) by (vm_compute; discriminate).
  assert (H2 : 0 <= ms 3) by (vm_compute; discriminate).
  split; [exact H1|]. split; [exact H2|].
  exact (calculateCPUPercent_not_negative (ms 7) (ms 3) (ms 25) H1 H2).
Defined.

(** ** Extraction, continued *)

(** X11: every extracted metrics value keeps the invariant of its CPU
    field: it is the share computed from the user, system and elapsed
    times of that same value, whether the child started or not, in both
    main.go drafts. *)
Theorem extractMetrics_CPUPercent (cmd : Cmd) (start end_ : Time.Time)
    (args : list string) :
  let m := extractMetrics cmd start end_ args in
  CPUPercent m = calculateCPUPercent (UserTime m) (SystemTime m) (ElapsedTime m)
  /\ Cli.extractMetrics cmd start end_ args = m.
Proof.
  cbv zeta. split; [|reflexivity].
  unfold extractMetrics.
  destruct (Cmd_ProcessState cmd) as [state|].
  - destruct (PS_SysUsage state); reflexivity.
  - cbn. symmetry. apply calculateCPUPercent_idle.
Qed.

Lemma wrap_range (z : Z) : Int64.in_range (Int64.wrap z).
Proof.
  unfold Int64.in_range, Int64.wrap, Int64.min_int, Int64.max_int.
  pose proof (Z.mod_pos_bound (z + 2 ^ 63) (2 ^ 64)). lia.
Qed.

Lemma Sub_range (t u : Time.Time) : Int64.in_range (Time.Sub t u).
Proof.
  unfold Time.Sub.
  destruct (_ && _)%bool; [unfold Int64.in_range, Time.maxDuration, Int64.min_int,
                             Int64.max_int; lia|].
  destruct (_ && _)%bool; [unfold Int64.in_range, Time.minDuration, Int64.min_int,
                             Int64.max_int; lia|].
  apply wrap_range.
Qed.

Lemma Sub_nonneg (t u : Time.Time) : Time.mono u <= Time.mono t -> 0 <= Time.Sub t u.
Proof.
  intros Hle. unfold Time.Sub.
  set (d := Int64.sub (Time.mono t) (Time.mono u)).
  destruct (Z.ltb_spec d 0) as [Hd | Hd];
    destruct (Z.ltb_spec (Time.mono u) (Time.mono t)) as [Hlt | Hge]; cbn [andb].
  - unfold Time.maxDuration, Int64.max_int. lia.
  - assert (Heq : Time.mono t = Time.mono u) by lia.
    subst d. unfold Int64.sub in Hd. rewrite Heq, Z.sub_diag in Hd.
    vm_compute in Hd. discriminate.
  - destruct (Z.ltb_spec 0 d); destruct (Z.ltb_spec (Time.mono t) (Time.mono u));
      cbn [andb]; lia.
  - destruct (Z.ltb_spec 0 d); destruct (Z.ltb_spec (Time.mono t) (Time.mono u));
      cbn [andb]; lia.
Qed.

(** X12: the elapsed time of every extracted metrics value fits a
    [Duration], since the clock difference saturates, and it is never
    negative when the clock reading at the end is not before the one at
    the start. *)
Theorem extractMetrics_ElapsedTime (cmd : Cmd) (start end_ : Time.Time)
    (args : list string) :
  let m := extractMetrics cmd start end_ args in
  Int64.in_range (ElapsedTime m)
  /\ (Time.mono start <= Time.mono end_ -> 0 <= ElapsedTime m).
Proof.
  cbv zeta.
  assert (He : ElapsedTime (extractMetrics cmd start end_ args) = Time.Sub end_ start).
  { unfold extractMetrics.
    destruct (Cmd_ProcessState cmd) as [state|]; [|reflexivity].
    destruct (PS_SysUsage state); reflexivity. }
  rewrite He. split; [apply Sub_range | apply Sub_nonneg].
Qed.

Lemma extractMetrics_ElapsedTime_witness :
  Time.mono {| Time.mono := 1000 |} <= Time.mono {| Time.mono := 4500 |} /\
  0 <= ElapsedTime (extractMetrics {| Cmd_ProcessState := None |}
                      {| Time.mono := 1000 |} {| Time.mono := 4500 |} ["true"]).
Proof.
  assert (H : Time.mono {| Time.mono := 1000 |} <= Time.mono {| Time.mono := 4500 |})
    by (cbn; lia).
  split; [exact H|].
  exact (proj2 (extractMetrics_ElapsedTime {| Cmd_ProcessState := None |}
                  {| Time.mono := 1000 |} {| Time.mono := 4500 |} ["true"]) H).
Defined.

(** X13: [populateUsage] touches the counters only.  It keeps the
    command, the three times and the CPU share; it changes nothing at all
    when the system gives no usage record; applying it twice is applying
    it once; and when there is a usage record the fourteen counters it
    writes do not depend on what the metrics held before. *)
Theorem populateUsage_counters_only (m m' : Metrics) (state : ProcessState) :
  let r := populateUsage m state in
  (Command r = Command m /\ UserTime r = UserTime m /\ SystemTime r = SystemTime m
   /\ ElapsedTime r = ElapsedTime m /\ CPUPercent r = CPUPercent m)
  /\ (PS_SysUsage state = None -> r = m)
  /\ populateUsage r state = r
  /\ (PS_SysUsage state <> None -> same_usage_counters r (populateUsage m' state)).
Proof.
  cbv zeta. unfold populateUsage.
  destruct (PS_SysUsage state) as [usage|].
  - repeat split; try reflexivity. discriminate.
  - repeat split; try reflexivity;
      match goal with Hno : None <> None |- _ => now elim Hno end.
Qed.

(** ** Exit status, continued *)

Lemma exit_code_exited (c : Z) :
  0 <= c <= 255 ->
  main_exit_code (Run (ExitedWith c)) = c
  /\ FirstDraft.main_exit_code (Run (ExitedWith c)) = c.
Proof.
  intros Hc.
  pose (P := fun c => ((main_exit_code (Run (ExitedWith c)) =? c)
                       && (FirstDraft.main_exit_code (Run (ExitedWith c)) =? c))%bool).
  assert (H : P c = true).
  { apply (Z_upto_all P 256 0); [vm_compute; reflexivity | lia]. }
  unfold P in H. apply andb_true_iff in H as [H1 H2].
  apply Z.eqb_eq in H1, H2. now split.
Qed.

Lemma exit_code_killed (n : Z) (dumped_core : bool) :
  1 <= n < 127 ->
  main_exit_code (Run (KilledBy n dumped_core)) = 128 + n
  /\ FirstDraft.main_exit_code (Run (KilledBy n dumped_core)) = -1.
Proof.
  intros Hn.
  pose (P := fun n =>
               ((main_exit_code (Run (KilledBy n dumped_core)) =? 128 + n)
                && (FirstDraft.main_exit_code (Run (KilledBy n dumped_core)) =? -1))%bool).
  assert (H : P n = true).
  { apply (Z_upto_all P 126 1); [destruct dumped_core; vm_compute; reflexivity | lia]. }
  unfold P in H. apply andb_true_iff in H as [H1 H2].
  apply Z.eqb_eq in H1, H2. now split.
Qed.

(** X14: the wrapper exits with status zero exactly when the child ran
    and exited with status zero: never after a signal, never after a
    failure to start. *)
Theorem main_exit_zero_iff (fate : ChildFate) (Hfate : reportable fate) :
  main_exit_code (Run fate) = 0 <-> fate = ExitedWith 0.
Proof.
  destruct fate as [message | c | n core]; cbn [reportable] in Hfate.
  - split; [cbn; discriminate | discriminate].
  - destruct (exit_code_exited c Hfate) as [Hc _]. rewrite Hc.
    split; [now intros -> | intros H; now injection H].
  - destruct (exit_code_killed n core Hfate) as [Hn _]. rewrite Hn.
    split; [lia | discriminate].
Qed.

Lemma main_exit_zero_iff_witness :
  reportable (KilledBy 9 false) /\
  (main_exit_code (Run (KilledBy 9 false)) = 0 <-> KilledBy 9 false = ExitedWith 0).
Proof.
  assert (H : reportable (KilledBy 9 false)) by (cbn; lia).
  split; [exact H|].
  exact (main_exit_zero_iff (KilledBy 9 false) H).
Defined.

Lemma land_127 (w : Z) : 0 <= Z.land w 127 <= 127.
Proof.
  change 127 with (Z.ones 7) at 1 2. rewrite Z.land_ones by lia.
  pose proof (Z.mod_pos_bound w (2 ^ 7)). lia.
Qed.

Lemma land_255 (w : Z) : 0 <= Z.land w 255 <= 255.
Proof.
  change 255 with (Z.ones 8) at 1 2. rewrite Z.land_ones by lia.
  pose proof (Z.mod_pos_bound w (2 ^ 8)). lia.
Qed.

(** X15: whatever wait status the child leaves, the argument of
    [os.Exit] fits the eight bits of an exit status, except for a status
    that reads as stopped, for which [ExitCode()] is -1; a child killed
    by a signal always gives a status above 128. *)
Theorem main_exit_code_range (err : option RunError) :
  -1 <= main_exit_code err <= 255
  /\ (forall w, err = Some (ExitError w) ->
        (Z.land w 127 <> 127 -> 0 <= main_exit_code err <= 255)
        /\ (WaitStatus.Signaled w = true -> 128 < main_exit_code err)).
Proof.
  assert (Hw : forall w,
             (-1 <= main_exit_code (Some (ExitError w)) <= 255)
             /\ (Z.land w 127 <> 127 -> 0 <= main_exit_code (Some (ExitError w)) <= 255)
             /\ (WaitStatus.Signaled w = true -> 128 < main_exit_code (Some (ExitError w)))).
  { intros w. cbn [main_exit_code].
    unfold WaitStatus.Signal, WaitStatus.ExitStatus, WaitStatus.Signaled,
      WaitStatus.Exited, WaitStatus.mask, WaitStatus.stopped, WaitStatus.exited,
      WaitStatus.shift.
    pose proof (land_127 w) as H127.
    pose proof (land_255 (Z.shiftr w 8)) as H255.
    destruct (Z.eqb_spec (Z.land w 127) 127) as [Hs | Hs];
      destruct (Z.eqb_spec (Z.land w 127) 0) as [He | He]; cbn [negb andb];
      repeat split; intros; try lia; try discriminate. }
  split.
  - destruct err as [[w | message]|]; [apply Hw | cbn; lia | cbn; lia].
  - intros w ->. apply Hw.
Qed.

(** X16: the first draft of main.go and the later ones exit alike when
    the child exits by itself, and only then: the first draft turns a
    death by signal into -1 and a failure to start into 1, where the
    later drafts give 128 plus the signal number and 127. *)
Theorem FirstDraft_exit_code (fate : ChildFate) (Hfate : reportable fate) :
  (FirstDraft.main_exit_code (Run fate) = main_exit_code (Run fate)
   <-> exists c, fate = ExitedWith c)
  /\ (forall n core, fate = KilledBy n core ->
        FirstDraft.main_exit_code (Run fate) = -1)
  /\ (forall message, fate = NotStarted message ->
        FirstDraft.main_exit_code (Run fate) = 1).
Proof.
  destruct fate as [message | c | n core]; cbn [reportable] in Hfate.
  - repeat split; try discriminate; try reflexivity.
    intros [c Hc]. discriminate.
  - destruct (exit_code_exited c Hfate) as [H1 H2].
    repeat split; try discriminate.
    + intros _. now exists c.
    + intros _. now rewrite H1, H2.
  - destruct (exit_code_killed n core Hfate) as [H1 H2].
    repeat split; try discriminate.
    + rewrite H1, H2. lia.
    + intros [c Hc]. discriminate.
    + intros n' core' Heq. injection Heq as <- <-. exact H2.
Qed.

Lemma FirstDraft_exit_code_witness :
  reportable (ExitedWith 3) /\
  (FirstDraft.main_exit_code (Run (ExitedWith 3)) = main_exit_code (Run (ExitedWith 3))
   <-> exists c, ExitedWith 3 = ExitedWith c).
Proof.
  assert (H : reportable (ExitedWith 3)) by (cbn; lia).
  split; [exact H|].
  exact (proj1 (FirstDraft_exit_code (ExitedWith 3) H)).
Defined.

(** ** The whole of [main] *)

(** X17: with [TIMEFMT] set to a non-empty template the kong draft and
    the stand-alone draft write the same line, the template rendered by
    [format] and a newline; with [TIMEFMT] unset or empty they part: the
    stand-alone draft renders the default template, the kong draft writes
    its styled summary. *)
Theorem printSummary_and_main (styled : Metrics -> string) (env : Environ) (m : Metrics) :
  (forall t, env "TIMEFMT" = Some t -> t <> "" ->
     CliSummary.printSummary styled env m = format t m ++ newline
     /\ main_summary env m = format t m ++ newline)
  /\ (env "TIMEFMT" = None \/ env "TIMEFMT" = Some "" ->
      CliSummary.printSummary styled env m = styled m
      /\ main_summary env m = format default_TIMEFMT m ++ newline).
Proof.
  split.
  - intros t Henv Ht.
    destruct (printSummary_with_template styled env t m Henv Ht) as [H1 H2].
    now rewrite H1.
  - intros Henv. split.
    + now apply printSummary_without_template.
    + unfold main_summary, main_timeFmt, Getenv. destruct Henv as [-> | ->]; reflexivity.
Qed.

Lemma format_default_not_started (command : string) (elapsed : Time.Duration) :
  format default_TIMEFMT (Metrics_literal command elapsed)
  = command ++ "  0.00s user 0.00s system 0% cpu " ++ star_E_text elapsed ++ " total".
Proof.
  rewrite format_render. unfold render, default_TIMEFMT.
  cbn [render_from Ascii.eqb Bool.eqb].
  change (specifier_text "J" (Metrics_literal command elapsed)) with (Some command).
  change (specifier_text "U" (Metrics_literal command elapsed)) with (Some "0.00s").
  change (specifier_text "S" (Metrics_literal command elapsed)) with (Some "0.00s").
  change (specifier_text "P" (Metrics_literal command elapsed)) with (Some "0%").
  cbn [ElapsedTime Metrics_literal].
  rewrite ?append_assoc. reflexivity.
Qed.

(** X19: when the command cannot be started and no template is set, the
    wrapper still reports: it writes the command line with zero user and
    system seconds, 0% and the elapsed clock, then the error on a line
    that begins with the program's name, and exits with 127. *)
Theorem main_start_failure (program : string) (cmdArgs : list string) (env : Environ)
    (run : list string -> RunResult) (message : string)
    (Hcmd : cmdArgs <> [])
    (Henv : env "TIMEFMT" = None \/ env "TIMEFMT" = Some "")
    (Herr : run_err (run cmdArgs) = Some (StartError message))
    (Hstate : run_state (run cmdArgs) = None) :
  main (program :: cmdArgs) env run
  = (Join cmdArgs " " ++ "  0.00s user 0.00s system 0% cpu "
       ++ star_E_text (Time.Sub (run_end (run cmdArgs)) (run_start (run cmdArgs)))
       ++ " total" ++ newline ++ "ztime: " ++ message ++ newline,
     127).
Proof.
  unfold main. cbn [List.tl List.length].
  destruct cmdArgs as [|a rest]; [now elim Hcmd|].
  cbn [List.length Nat.ltb Nat.leb].
  rewrite Herr.
  assert (Hfmt : (if (Getenv env "TIMEFMT" =? "")%string then default_TIMEFMT
                  else Getenv env "TIMEFMT") = default_TIMEFMT).
  { unfold Getenv. destruct Henv as [-> | ->]; reflexivity. }
  rewrite Hfmt. unfold extractMetrics. cbn [Cmd_ProcessState]. rewrite Hstate.
  rewrite format_default_not_started. rewrite ?append_assoc. reflexivity.
Qed.

Lemma main_start_failure_witness :
  main ["ztime"; "no-such-program"] (fun _ => None)
    (fun _ => {| run_err := Some (StartError "exec: not found"); run_state := None;
                 run_start := {| Time.mono := 0 |};
                 run_end := {| Time.mono := 2500000000 |} |})
  = (Join ["no-such-program"] " " ++ "  0.00s user 0.00s system 0% cpu "
       ++ star_E_text (Time.Sub {| Time.mono := 2500000000 |} {| Time.mono := 0 |})
       ++ " total" ++ newline ++ "ztime: " ++ "exec: not found" ++ newline,
     127).
Proof.
  apply (main_start_failure "ztime" ["no-such-program"] (fun _ => None)
           (fun _ => {| run_err := Some (StartError "exec: not found"); run_state := None;
                        run_start := {| Time.mono := 0 |};
                        run_end := {| Time.mono := 2500000000 |} |})
           "exec: not found").
  - discriminate.
  - left; reflexivity.
  - reflexivity.
  - reflexivity.
Defined.

(** ** Binary64 arithmetic: the size of a rounded number *)

Lemma round_nearest_even_le (m : Z) (l : location) : round_nearest_even m l <= m + 1.
Proof.
  destruct l as [|[]]; cbn [round_nearest_even]; try lia.
  destruct (Z.even m); lia.
Qed.

Lemma Zdigits2_unique (m : positive) (k : Z) :
  2 ^ (k - 1) <= Zpos m < 2 ^ k -> Zdigits2 (Zpos m) = k.
Proof.
  intros [Hlo Hhi].
  assert (Hk : 0 < k).
  { destruct (Z.ltb_spec 0 k); [assumption|].
    rewrite Z.pow_neg_r in Hlo by lia.
    assert (2 ^ k <= 1).
    { destruct (Z.eq_dec k 0) as [-> | Hne]; [cbn; lia|].
      rewrite Z.pow_neg_r by lia. lia. }
    lia. }
  rewrite Zdigits2_log2.
  rewrite (Z.log2_unique (Zpos m) (k - 1)); [lia | lia |].
  replace (Z.succ (k - 1)) with k by lia. split; assumption.
Qed.

Lemma shr_shift (mrs : shr_record) (e n : Z) :
  0 <= n -> 0 <= shr_m mrs ->
  shr_m (fst (shr mrs e n)) = shr_m mrs / 2 ^ n /\ snd (shr mrs e n) = e + n.
Proof.
  intros Hn Hm. unfold shr. destruct n as [|p|p]; cbn [fst snd]; try lia.
  - rewrite Z.pow_0_r, Z.div_1_r. split; lia.
  - split; [now apply iter_shr_1_m | reflexivity].
Qed.

Lemma shr_fexp_shift (m : positive) (e : Z) (l : location) :
  53 <= Zdigits2 (Zpos m) -> -1074 <= e ->
  shr_fexp 53 1024 (Zpos m) e l
  = shr (shr_record_of_loc (Zpos m) l) e (Zdigits2 (Zpos m) - 53).
Proof.
  intros Hd He. unfold shr_fexp. f_equal. unfold fexp, emin. lia.
Qed.

(** Rounding a positive number of at least 53 digits, well inside the
    range of the format: the result has a mantissa of exactly 53 digits,
    and it is the mantissa cut down to 53 digits or one more than that,
    read at the exponent of the cut or, after a carry, the next one. *)
Lemma binary_round_aux_bound (m : positive) (e : Z) (l : location) :
  53 <= Zdigits2 (Zpos m) -> -1074 <= e -> Zdigits2 (Zpos m) + e <= 1000 ->
  exists m2 e2,
    binary_round_aux 53 1024 false (Zpos m) e l = S754_finite false m2 e2
    /\ Zdigits2 (Zpos m2) = 53
    /\ ((e2 = e + (Zdigits2 (Zpos m) - 53)
         /\ Zpos m / 2 ^ (Zdigits2 (Zpos m) - 53) <= Zpos m2
            <= Zpos m / 2 ^ (Zdigits2 (Zpos m) - 53) + 1)
        \/ (e2 = e + (Zdigits2 (Zpos m) - 53) + 1
            /\ 2 * Zpos m2 = Zpos m / 2 ^ (Zdigits2 (Zpos m) - 53) + 1)).
Proof.
  intros Hd He Hmag.
  pose proof (Zdigits2_bounds m) as [Hlo Hhi].
  unfold binary_round_aux. rewrite shr_fexp_shift by assumption.
  set (d := Zdigits2 (Zpos m)) in *.
  set (ns := d - 53).
  assert (Hp1 : 2 ^ (d - 1) = 2 ^ 52 * 2 ^ ns)
    by (unfold ns; rewrite <- Z.pow_add_r by lia; f_equal; lia).
  assert (Hp2 : 2 ^ d = 2 ^ 53 * 2 ^ ns)
    by (unfold ns; rewrite <- Z.pow_add_r by lia; f_equal; lia).
  assert (Hns : 0 < 2 ^ ns) by (apply Z.pow_pos_nonneg; unfold ns; lia).
  assert (Hm1 : 2 ^ 52 <= Zpos m / 2 ^ ns < 2 ^ 53).
  { split.
    - apply Z.div_le_lower_bound; [lia|]. rewrite Z.mul_comm. lia.
    - apply Z.div_lt_upper_bound; [lia|]. rewrite Z.mul_comm. lia. }
  destruct (shr_shift (shr_record_of_loc (Zpos m) l) e ns) as [Hs1 Hs2];
    [unfold ns; lia | rewrite shr_record_of_loc_m; lia |].
  rewrite shr_record_of_loc_m in Hs1.
  destruct (shr (shr_record_of_loc (Zpos m) l) e ns) as [mrs1 e1].
  cbn [fst snd] in Hs1, Hs2. subst e1.
  pose proof (round_nearest_even_ge (shr_m mrs1) (loc_of_shr_record mrs1)) as Hge.
  pose proof (round_nearest_even_le (shr_m mrs1) (loc_of_shr_record mrs1)) as Hle.
  rewrite Hs1 in Hge, Hle.
  rewrite Hs1. set (m1 := Zpos m / 2 ^ ns) in *.
  destruct (round_nearest_even m1 (loc_of_shr_record mrs1)) as [|q|q];
    try lia.
  change (2 ^ 52) with 4503599627370496 in Hm1.
  change (2 ^ 53) with 9007199254740992 in Hm1.
  unfold shr_fexp.
  destruct (Z.eq_dec (Zpos q) 9007199254740992) as [Hcarry | Hnocarry].
  - (* the rounding carried into a 54th digit *)
    assert (Hq : q = 9007199254740992%positive) by congruence. subst q.
    exists 4503599627370496%positive, (e + ns + 1).
    split; [|split; [reflexivity | right; split; [reflexivity | lia]]].
    change (Zdigits2 (Zpos 9007199254740992)) with 54.
    replace (fexp 53 1024 (54 + (e + ns)) - (e + ns)) with 1
      by (unfold fexp, emin, ns; lia).
    cbn [shr shr_record_of_loc iter_pos shr_1 shr_m].
    destruct (Z.leb_spec (e + ns + 1) (1024 - 53)); [reflexivity | unfold ns in *; lia].
  - assert (Hdq : Zdigits2 (Zpos q) = 53).
    { apply Zdigits2_unique.
      change (2 ^ (53 - 1)) with 4503599627370496.
      change (2 ^ 53) with 9007199254740992. lia. }
    exists q, (e + ns).
    split; [|split; [exact Hdq | left; split; [reflexivity | lia]]].
    rewrite Hdq.
    replace (fexp 53 1024 (53 + (e + ns)) - (e + ns)) with 0
      by (unfold fexp, emin, ns; lia).
    cbn [shr shr_record_of_loc shr_m].
    destruct (Z.leb_spec (e + ns) (1024 - 53)); [reflexivity | unfold ns in *; lia].
Qed.

Lemma iter_xO_value (m d : positive) : Zpos (Pos.iter xO m d) = Zpos m * 2 ^ Zpos d.
Proof.
  rewrite Pos2Nat.inj_iter.
  rewrite <- (positive_nat_Z d).
  induction (Pos.to_nat d) as [|n IH]; cbn [nat_rect].
  - cbn. lia.
  - rewrite Pos2Z.inj_xO, IH, Nat2Z.inj_succ, Z.pow_succ_r by lia. lia.
Qed.

(** [float64(z)] for a positive [z] of at most 53 bits, with the value of
    its mantissa. *)
Lemma of_int_small_value (p : positive) :
  Zdigits2 (Zpos p) <= 53 ->
  exists m, Float64.of_int (Zpos p) = S754_finite false m (Zdigits2 (Zpos p) - 53)
            /\ Zdigits2 (Zpos m) = 53
            /\ Zpos m = Zpos p * 2 ^ (53 - Zdigits2 (Zpos p)).
Proof.
  intros Hd. pose proof (Zdigits2_pos p) as Hd1.
  unfold Float64.of_int, Float64.prec, Float64.emax, binary_normalize, binary_round, shl_align.
  cbn [Zdigits2] in *.
  assert (Hf : fexp 53 1024 (Zpos (digits2_pos p) + 0) = Zpos (digits2_pos p) - 53)
    by (unfold fexp, emin; lia).
  rewrite Hf.
  destruct (Zpos (digits2_pos p) - 53 - 0) as [|d|d] eqn:Hshift; try lia.
  - exists p. replace (Zpos (digits2_pos p) - 53) with 0 by lia.
    split; [|split; [cbn [Zdigits2]; lia|]].
    + apply binary_round_aux_53; cbn [Zdigits2]; lia.
    + replace (53 - Zpos (digits2_pos p)) with 0 by lia. lia.
  - exists (Pos.iter xO p d).
    assert (Hd53 : Zdigits2 (Zpos (Pos.iter xO p d)) = 53).
    { cbn [Zdigits2]. rewrite digits2_pos_iter_xO. lia. }
    split; [|split; [exact Hd53|]].
    + apply binary_round_aux_53; [exact Hd53 | lia].
    + rewrite iter_xO_value. f_equal. f_equal. lia.
Qed.

Lemma Zdigits2_mono (a b : positive) :
  Zpos a <= Zpos b -> Zdigits2 (Zpos a) <= Zdigits2 (Zpos b).
Proof.
  intros H. rewrite !Zdigits2_log2.
  pose proof (Z.log2_le_mono (Zpos a) (Zpos b) H). lia.
Qed.

Lemma Zdigits2_le (a : positive) (k : Z) :
  0 < k -> Zpos a < 2 ^ k -> Zdigits2 (Zpos a) <= k.
Proof.
  intros Hk H. rewrite Zdigits2_log2.
  assert (Z.log2 (Zpos a) < k) by (apply Z.log2_lt_pow2; lia). lia.
Qed.

(** A positive count divided by a larger one of at most 42 bits is a
    binary64 below one: a full mantissa at an exponent of at most -53. *)
Lemma div_below_one (n c : positive) :
  Zpos n < Zpos c -> 2049 * Zpos c <= 2 ^ 53 ->
  exists m e,
    Float64.div (Float64.of_int (Zpos n)) (Float64.of_int (Zpos c)) = S754_finite false m e
    /\ Zdigits2 (Zpos m) = 53 /\ -1074 <= e <= -53.
Proof.
  intros Hlt Hc.
  change (2 ^ 53) with 9007199254740992 in Hc.
  assert (Hdc : Zdigits2 (Zpos c) <= 42).
  { apply Zdigits2_le; [lia|]. change (2 ^ 42) with 4398046511104. lia. }
  assert (Hdn : Zdigits2 (Zpos n) <= Zdigits2 (Zpos c)) by (apply Zdigits2_mono; lia).
  pose proof (Zdigits2_pos n) as Hn1.
  destruct (of_int_small_value n) as [mx [Hx [Hmx Hvx]]]; [lia|].
  destruct (of_int_small_value c) as [my [Hy [Hmy Hvy]]]; [lia|].
  rewrite Hx, Hy.
  set (k := Zdigits2 (Zpos n)) in *. set (dc := Zdigits2 (Zpos c)) in *.
  unfold Float64.div, Float64.prec, Float64.emax, SFdiv, SFdiv_core_binary.
  rewrite Hmx, Hmy.
  assert (He' : Z.min (fexp 53 1024 (53 + (k - 53) - (53 + (dc - 53))))
                  (k - 53 - (dc - 53)) = k - dc - 53)
    by (unfold fexp, emin; lia).
  rewrite He'.
  replace (k - 53 - (dc - 53) - (k - dc - 53)) with 53 by lia.
  cbv iota.
  pose proof (Z_div_mod (Z.shiftl (Zpos mx) 53) (Zpos my) eq_refl) as Hqr.
  destruct (Z.div_eucl (Z.shiftl (Zpos mx) 53) (Zpos my)) as [q r].
  destruct Hqr as [Hqr Hr].
  rewrite Z.shiftl_mul_pow2 in Hqr by lia.
  change (2 ^ 53) with 9007199254740992 in Hqr.
  pose proof (Zdigits2_bounds mx) as Hbx. rewrite Hmx in Hbx.
  pose proof (Zdigits2_bounds my) as Hby. rewrite Hmy in Hby.
  change (2 ^ (53 - 1)) with 4503599627370496 in Hbx, Hby.
  change (2 ^ 53) with 9007199254740992 in Hbx, Hby.
  assert (Hq52 : 4503599627370496 <= q) by nia.
  assert (Hq54 : q < 18014398509481984) by nia.
  (* the quotient is below [2^(53+j) - 2049], [j] the difference of the lengths *)
  set (A := 2 ^ (53 - dc)) in *.
  set (J := 2 ^ (dc - k)).
  assert (HA : 0 < A) by (apply Z.pow_pos_nonneg; lia).
  assert (HJ : 0 < J) by (apply Z.pow_pos_nonneg; lia).
  assert (HAJ : 2 ^ (53 - k) = A * J).
  { unfold A, J. rewrite <- Z.pow_add_r by lia. f_equal. lia. }
  rewrite HAJ in Hvx.
  assert (Hcq : Zpos c * q <= Zpos n * (J * 9007199254740992)).
  { apply (Z.mul_le_mono_pos_l _ _ A HA). nia. }
  assert (HqT : q <= J * 9007199254740992 - 2049).
  { apply (Z.mul_le_mono_pos_l _ _ (Zpos c)); [lia|]. nia. }
  destruct q as [|q|q]; try lia.
  cbn [xorb].
  assert (Hdq : (Zpos q < 9007199254740992 /\ Zdigits2 (Zpos q) = 53)
                \/ (9007199254740992 <= Zpos q /\ Zdigits2 (Zpos q) = 54)).
  { destruct (Z.ltb_spec (Zpos q) 9007199254740992); [left | right];
      (split; [assumption|]); apply Zdigits2_unique.
    - change (2 ^ (53 - 1)) with 4503599627370496.
      change (2 ^ 53) with 9007199254740992. lia.
    - change (2 ^ (54 - 1)) with 9007199254740992.
      change (2 ^ 54) with 18014398509481984. lia. }
  destruct (binary_round_aux_bound q (k - dc - 53) (new_location (Zpos my) r))
    as [m2 [e2 [Hres [Hd2 Hcases]]]]; [lia | lia | lia |].
  exists m2, e2. split; [exact Hres|]. split; [exact Hd2|].
  pose proof (Zdigits2_bounds m2) as Hb2. rewrite Hd2 in Hb2.
  change (2 ^ (53 - 1)) with 4503599627370496 in Hb2.
  change (2 ^ 53) with 9007199254740992 in Hb2.
  destruct (Z.eq_dec (dc - k) 0) as [Hj0 | Hj0];
    [|destruct (Z.eq_dec (dc - k) 1) as [Hj1 | Hj1]].
  - unfold J in HqT. rewrite Hj0 in HqT. change (2 ^ 0) with 1 in HqT.
    destruct Hdq as [[Hq Hdq] | [Hq Hdq]]; [|lia].
    rewrite Hdq in Hcases. change (2 ^ (53 - 53)) with 1 in Hcases.
    rewrite Z.div_1_r in Hcases. lia.
  - unfold J in HqT. rewrite Hj1 in HqT. change (2 ^ 1) with 2 in HqT.
    destruct Hdq as [[Hq Hdq] | [Hq Hdq]]; rewrite Hdq in Hcases.
    + lia.
    + change (2 ^ (54 - 53)) with 2 in Hcases.
      assert (Hh : Zpos q / 2 < 9007199254740992 - 1024)
        by (apply Z.div_lt_upper_bound; lia).
      lia.
  - destruct Hdq as [[Hq Hdq] | [Hq Hdq]]; rewrite Hdq in Hcases; lia.
Qed.

(** ** Binary64 arithmetic: the whole hours and minutes of a duration *)

Lemma to_int_below_one (m : positive) (e : Z) :
  Zdigits2 (Zpos m) = 53 -> e <= -53 ->
  Float64.to_int (S754_finite false m e) = 0.
Proof.
  intros Hd He.
  pose proof (Zdigits2_bounds m) as [_ Hhi]. rewrite Hd in Hhi.
  unfold Float64.to_int, Float64.trunc.
  destruct e as [|p|p]; try lia.
  rewrite Z.shiftr_div_pow2 by lia.
  rewrite Z.div_small; [reflexivity|].
  split; [lia|].
  apply Z.lt_le_trans with (2 ^ 53); [exact Hhi|].
  apply Z.pow_le_mono_r; lia.
Qed.

Lemma to_int_at_least_one (m : positive) (e : Z) :
  Zdigits2 (Zpos m) = 53 -> -52 <= e <= 0 ->
  1 <= Float64.to_int (S754_finite false m e).
Proof.
  intros Hd He.
  pose proof (Zdigits2_bounds m) as [Hlo Hhi]. rewrite Hd in Hlo, Hhi.
  change (2 ^ (53 - 1)) with 4503599627370496 in Hlo.
  change (2 ^ 53) with 9007199254740992 in Hhi.
  unfold Float64.to_int, Float64.trunc.
  set (a := match e with
            | Zneg p => Z.shiftr (Zpos m) (Zpos p)
            | _ => Z.shiftl (Zpos m) e
            end).
  assert (Ha : 1 <= a <= Zpos m).
  { subst a. destruct e as [|p|p]; try lia.
    - rewrite Z.shiftl_0_r. lia.
    - rewrite Z.shiftr_div_pow2 by lia.
      assert (Hp : 0 < 2 ^ Zpos p) by (apply Z.pow_pos_nonneg; lia).
      assert (Hp52 : 2 ^ Zpos p <= 2 ^ 52) by (apply Z.pow_le_mono_r; lia).
      change (2 ^ 52) with 4503599627370496 in Hp52.
      split.
      + apply Z.div_le_lower_bound; lia.
      + apply Z.div_le_upper_bound; [lia|]. nia. }
  assert (Hr : Int64.in_rangeb a = true).
  { unfold Int64.in_rangeb, Int64.min_int, Int64.max_int.
    change (2 ^ 63) with 9223372036854775808.
    apply andb_true_intro. split; apply Z.leb_le; lia. }
  rewrite Hr. lia.
Qed.

Lemma to_int_nonpositive (x : Float64.float64) :
  Float64.is_nonpositive x -> Float64.to_int x <= 0.
Proof.
  intros Hx. unfold Float64.to_int.
  assert (Hmin : Int64.min_int <= 0) by (unfold Int64.min_int; cbn; lia).
  destruct x as [s | s | | s m e]; cbn [Float64.trunc]; try exact Hmin.
  - cbn. lia.
  - cbn in Hx. subst s.
    set (a := match e with
              | Zneg p => Z.shiftr (Zpos m) (Zpos p)
              | _ => Z.shiftl (Zpos m) e
              end).
    assert (Ha : 0 <= a).
    { subst a. destruct e; [apply Z.shiftl_nonneg | apply Z.shiftl_nonneg
                           | apply Z.shiftr_nonneg]; lia. }
    destruct (Int64.in_rangeb (- a)); lia.
Qed.

Lemma div_nonpositive (x : Float64.float64) (c : positive) :
  Float64.is_nonpositive x ->
  Float64.is_nonpositive (Float64.div x (Float64.of_int (Zpos c))).
Proof.
  intros Hx.
  pose proof (of_int_positive (Zpos c) eq_refl) as Hc.
  destruct (Float64.of_int (Zpos c)) as [sy | [|] | | [|] my ey]; cbn in Hc;
    try contradiction;
    destruct x as [s | s | | s m e]; cbn [Float64.is_nonpositive] in Hx |- *;
    try exact I; try (subst s; exact eq_refl).
  subst s. unfold Float64.div, SFdiv.
  destruct (SFdiv_core_binary _ _ _ _ _ _) as [[mz ez] lz].
  apply binary_round_aux_nonpositive.
Qed.

(** Adding a number below one to a number of at least one: the sum is a
    full mantissa at the exponent of the larger number or at most two
    above it. *)
Lemma add_above_one (mh : positive) (eh : Z) (y : Float64.float64) :
  Zdigits2 (Zpos mh) = 53 -> -52 <= eh <= 0 ->
  (y = S754_zero false
   \/ exists my ey, y = S754_finite false my ey
                    /\ Zdigits2 (Zpos my) = 53 /\ -1074 <= ey <= -53) ->
  exists m e, Float64.add (S754_finite false mh eh) y = S754_finite false m e
              /\ Zdigits2 (Zpos m) = 53 /\ eh <= e <= eh + 2.
Proof.
  intros Hdh Heh [-> | [my [ey [-> [Hdy Hey]]]]].
  - exists mh, eh. split; [reflexivity|]. split; [exact Hdh | lia].
  - unfold Float64.add, Float64.prec, Float64.emax, SFadd.
    replace (Z.min eh ey) with ey by lia.
    unfold shl_align at 1 2.
    rewrite Z.sub_diag.
    destruct (ey - eh) as [|d|d] eqn:Hd; try lia.
    cbn [fst cond_Zopp Z.add binary_normalize].
    set (a := Pos.iter xO mh d).
    assert (Hda : Zdigits2 (Zpos a) = 53 + Zpos d).
    { unfold a. cbn [Zdigits2] in *. rewrite digits2_pos_iter_xO. lia. }
    pose proof (Zdigits2_bounds a) as [Halo Hahi]. rewrite Hda in Halo, Hahi.
    pose proof (Zdigits2_bounds my) as [_ Hyhi]. rewrite Hdy in Hyhi.
    assert (Hpow : 2 ^ 53 <= 2 ^ (53 + Zpos d)) by (apply Z.pow_le_mono_r; lia).
    assert (Hsucc : 2 ^ (54 + Zpos d) = 2 * 2 ^ (53 + Zpos d)).
    { replace (54 + Zpos d) with (Z.succ (53 + Zpos d)) by lia.
      apply Z.pow_succ_r. lia. }
    assert (HDlo : 53 + Zpos d <= Zdigits2 (Zpos (a + my))).
    { rewrite <- Hda. apply Zdigits2_mono. lia. }
    assert (HDhi : Zdigits2 (Zpos (a + my)) <= 54 + Zpos d).
    { apply Zdigits2_le; [lia|]. rewrite Pos2Z.inj_add. lia. }
    unfold binary_round, shl_align.
    change (Zpos (digits2_pos (a + my))) with (Zdigits2 (Zpos (a + my))).
    set (D := Zdigits2 (Zpos (a + my))) in *.
    assert (Hf : fexp 53 1024 (D + ey) - ey = D - 53) by (unfold fexp, emin; lia).
    rewrite Hf.
    destruct (D - 53) as [|s|s] eqn:Hs; try lia.
    destruct (binary_round_aux_bound (a + my) ey loc_Exact)
      as [m2 [e2 [Hres [Hd2 Hcases]]]]; fold D; [lia | lia | lia |].
    exists m2, e2. split; [exact Hres|]. split; [exact Hd2|].
    fold D in Hcases. lia.
Qed.

(** The shape shared by [Duration.Minutes] and [Duration.Hours]: the
    whole units as a number plus the rest divided by the unit.  Its
    integer part is positive exactly when the duration is at least one
    unit, however the two roundings fall. *)
Lemma whole_units_positive (d : Z) (c : positive) :
  4096 <= Zpos c -> 2049 * Zpos c <= 2 ^ 53 -> d <= Int64.max_int ->
  (0 <? Float64.to_int
          (Float64.add (Float64.of_int (Z.quot d (Zpos c)))
             (Float64.div (Float64.of_int (Z.rem d (Zpos c)))
                (Float64.of_int (Zpos c)))))
  = (Zpos c <=? d).
Proof.
  intros Hc1 Hc2 Hd.
  unfold Int64.max_int in Hd. change (2 ^ 63) with 9223372036854775808 in Hd.
  pose proof Hc2 as Hc2'. change (2 ^ 53) with 9007199254740992 in Hc2'.
  destruct (Z.leb_spec (Zpos c) d) as [Hge | Hlt].
  - (* at least one unit *)
    apply Z.ltb_lt.
    assert (Hh1 : 1 <= Z.quot d (Zpos c)) by (apply Z.quot_le_lower_bound; lia).
    assert (Hh2 : Z.quot d (Zpos c) < 2 ^ 51).
    { apply Z.quot_lt_upper_bound; [lia | lia|].
      change (2 ^ 51) with 2251799813685248. lia. }
    assert (Hr : 0 <= Z.rem d (Zpos c) < Zpos c) by (apply Z.rem_bound_pos; lia).
    destruct (Z.quot d (Zpos c)) as [|h|h]; try lia.
    assert (Hdh : Zdigits2 (Zpos h) <= 51) by (apply Zdigits2_le; lia).
    pose proof (Zdigits2_pos h) as Hdh1.
    destruct (of_int_small_value h) as [mh [Hx [Hmh _]]]; [lia|].
    rewrite Hx.
    assert (Hy : Float64.div (Float64.of_int (Z.rem d (Zpos c))) (Float64.of_int (Zpos c))
                 = S754_zero false
                 \/ exists my ey,
                      Float64.div (Float64.of_int (Z.rem d (Zpos c)))
                        (Float64.of_int (Zpos c)) = S754_finite false my ey
                      /\ Zdigits2 (Zpos my) = 53 /\ -1074 <= ey <= -53).
    { destruct (Z.rem d (Zpos c)) as [|n|n]; try lia.
      - left.
        assert (Hdc : Zdigits2 (Zpos c) <= 53).
        { apply Zdigits2_le; [lia|]. change (2 ^ 53) with 9007199254740992. lia. }
        destruct (of_int_small_value c) as [mc [-> _]]; [exact Hdc|]. reflexivity.
      - right. apply div_below_one; lia. }
    destruct (add_above_one mh (Zdigits2 (Zpos h) - 53) _ Hmh ltac:(lia) Hy)
      as [m [e [-> [Hm He]]]].
    pose proof (to_int_at_least_one m e Hm ltac:(lia)). lia.
  - apply Z.ltb_ge.
    destruct (Z.ltb_spec 0 d) as [Hpos | Hneg].
    + (* positive and below one unit *)
      rewrite Z.quot_small, Z.rem_small by lia.
      destruct d as [|n|n]; try lia.
      destruct (div_below_one n c Hlt Hc2) as [my [ey [-> [Hmy Hey]]]].
      change (Float64.of_int 0) with (S754_zero false).
      change (Float64.add (S754_zero false) (S754_finite false my ey))
        with (S754_finite false my ey).
      rewrite to_int_below_one by (assumption || lia). lia.
    + (* zero or negative *)
      apply to_int_nonpositive.
      assert (Hr : Z.rem d (Zpos c) <= 0) by (apply Z.rem_nonpos; lia).
      assert (Hq : Z.quot d (Zpos c) <= 0).
      { rewrite <- (Z.opp_involutive d), Z.quot_opp_l by lia.
        assert (0 <= Z.quot (- d) (Zpos c)) by (apply Z.quot_pos; lia). lia. }
      apply add_nonpositive.
      * now apply of_int_nonpositive.
      * apply div_nonpositive. now apply of_int_nonpositive.
Qed.

Lemma Hours_positive (d : Time.Duration) :
  d <= Int64.max_int ->
  (0 <? Float64.to_int (Time.Hours d)) = (Time.Hour <=? d).
Proof.
  intros Hd. unfold Time.Hours. change Time.Hour with 3600000000000.
  apply (whole_units_positive d 3600000000000); [lia | | exact Hd].
  change (2 ^ 53) with 9007199254740992. lia.
Qed.

Lemma Minutes_positive (d : Time.Duration) :
  d <= Int64.max_int ->
  (0 <? Float64.to_int (Time.Minutes d)) = (Time.Minute <=? d).
Proof.
  intros Hd. unfold Time.Minutes. change Time.Minute with 60000000000.
  apply (whole_units_positive d 60000000000); [lia | | exact Hd].
  change (2 ^ 53) with 9007199254740992. lia.
Qed.

Lemma whole_units_zero (d : Z) (c : positive) :
  2049 * Zpos c <= 2 ^ 53 -> 0 <= d < Zpos c ->
  Float64.to_int
    (Float64.add (Float64.of_int (Z.quot d (Zpos c)))
       (Float64.div (Float64.of_int (Z.rem d (Zpos c))) (Float64.of_int (Zpos c))))
  = 0.
Proof.
  intros Hc Hd.
  rewrite Z.quot_small, Z.rem_small by lia.
  change (Float64.of_int 0) with (S754_zero false).
  destruct d as [|n|n]; try lia.
  - assert (Hdc : Zdigits2 (Zpos c) <= 53).
    { apply Zdigits2_le; [lia|]. lia. }
    destruct (of_int_small_value c) as [mc [-> _]]; [exact Hdc|]. reflexivity.
  - destruct (div_below_one n c (proj2 Hd) Hc) as [my [ey [-> [Hmy Hey]]]].
    change (Float64.add (S754_zero false) (S754_finite false my ey))
      with (S754_finite false my ey).
    apply to_int_below_one; [assumption | lia].
Qed.

Lemma sub_zero (x : Float64.float64) : Float64.sub x (S754_zero false) = x.
Proof. destruct x as [[|] | s | | s m e]; reflexivity. Qed.

(** ** The clock of [%*E] *)

(** X20: the hours field of [%*E] appears exactly from one hour on.  The
    wrapper tests the integer part of the binary64 number [d.Hours()];
    for every elapsed time that test is the test [d >= time.Hour], and in
    the long form the hours shown are at least one. *)
Theorem format_star_E_hour_form (m : Metrics) (pre post : string)
    (Hpre : complete pre) (Hrange : ElapsedTime m <= Int64.max_int) :
  let d := ElapsedTime m in
  let hours := Float64.to_int (Time.Hours d) in
  let minutes := Float64.to_int (Time.Minutes d) in
  let secs := Float64.sub (Time.Seconds d) (Float64.of_int (Int64.mul minutes 60)) in
  format (pre ++ "%*E" ++ post) m
  = format pre m
    ++ (if Time.Hour <=? d then Fmt.Sprintf_h_mm_ss hours (Z.rem minutes 60) secs
        else Fmt.Sprintf_m_ss (Z.rem minutes 60) secs)
    ++ format post m
  /\ (Time.Hour <= d -> 1 <= hours /\ 1 <= minutes)
  /\ (d < Time.Minute -> minutes <= 0).
Proof.
  cbv zeta.
  pose proof (Hours_positive (ElapsedTime m) Hrange) as Hh.
  pose proof (Minutes_positive (ElapsedTime m) Hrange) as Hm.
  split; [|split].
  - rewrite (proj1 (format_star m pre post Hpre)).
    unfold star_E_text. rewrite Hh. reflexivity.
  - intros Hge.
    assert (H1 : (Time.Hour <=? ElapsedTime m) = true) by (apply Z.leb_le; exact Hge).
    assert (H2 : (Time.Minute <=? ElapsedTime m) = true).
    { apply Z.leb_le. change Time.Hour with 3600000000000 in Hge.
      change Time.Minute with 60000000000. lia. }
    rewrite H1 in Hh. rewrite H2 in Hm.
    apply Z.ltb_lt in Hh. apply Z.ltb_lt in Hm. lia.
  - intros Hlt.
    assert (H2 : (Time.Minute <=? ElapsedTime m) = false) by (apply Z.leb_gt; exact Hlt).
    rewrite H2 in Hm. apply Z.ltb_ge in Hm. exact Hm.
Qed.

Lemma format_star_E_hour_form_witness :
  format "%*E" (Metrics_literal "" Time.Hour)
  = Fmt.Sprintf_h_mm_ss
      (Float64.to_int (Time.Hours Time.Hour))
      (Z.rem (Float64.to_int (Time.Minutes Time.Hour)) 60)
      (Float64.sub (Time.Seconds Time.Hour)
         (Float64.of_int (Int64.mul (Float64.to_int (Time.Minutes Time.Hour)) 60))).
Proof.
  assert (Hpre : complete "") by reflexivity.
  assert (Hrange : ElapsedTime (Metrics_literal "" Time.Hour) <= Int64.max_int)
    by (vm_compute; discriminate).
  pose proof (proj1 (format_star_E_hour_form (Metrics_literal "" Time.Hour) "" ""
                       Hpre Hrange)) as H.
  vm_compute in H |- *. exact H.
Defined.

(** X21: a run of less than a minute is shown by [%*E] as [0:] followed
    by the seconds, the very number that [%E] shows, here zero-padded to
    five characters: the minutes taken from [d.Minutes()] are zero and
    nothing is subtracted from [d.Seconds()]. *)
Theorem format_star_E_under_a_minute (m : Metrics)
    (Hd : 0 <= ElapsedTime m < Time.Minute) :
  format "%*E" m = "0:" ++ Fmt.Sprintf_05_2f (Time.Seconds (ElapsedTime m))
  /\ format "%E" m = Fmt.Sprintf_2f (Time.Seconds (ElapsedTime m)) ++ "s".
Proof.
  split.
  2:{ rewrite format_render.
      change (render "%E" m)
        with ((Fmt.Sprintf_2f (Time.Seconds (ElapsedTime m)) ++ "s") ++ "").
      apply append_nil_r. }
  rewrite format_render.
  change (render "%*E" m) with (star_E_text (ElapsedTime m) ++ "").
  rewrite append_nil_r. unfold star_E_text.
  change Time.Minute with 60000000000 in Hd.
  assert (Hh : Float64.to_int (Time.Hours (ElapsedTime m)) = 0).
  { unfold Time.Hours. change Time.Hour with 3600000000000.
    apply (whole_units_zero _ 3600000000000); [|lia].
    change (2 ^ 53) with 9007199254740992. lia. }
  assert (Hm : Float64.to_int (Time.Minutes (ElapsedTime m)) = 0).
  { unfold Time.Minutes. change Time.Minute with 60000000000.
    apply (whole_units_zero _ 60000000000); [|lia].
    change (2 ^ 53) with 9007199254740992. lia. }
  rewrite Hh, Hm.
  change (Float64.of_int (Int64.mul 0 60)) with (S754_zero false).
  rewrite sub_zero. reflexivity.
Qed.

Lemma format_star_E_under_a_minute_witness :
  format "%*E" (Metrics_literal "" (ms 2500))
  = "0:" ++ Fmt.Sprintf_05_2f (Time.Seconds (ms 2500)).
Proof.
  assert (Hd : 0 <= ElapsedTime (Metrics_literal "" (ms 2500)) < Time.Minute)
    by (vm_compute; split; discriminate || reflexivity).
  exact (proj1 (format_star_E_under_a_minute (Metrics_literal "" (ms 2500)) Hd)).
Defined.
